(** * ufro-master orchestrator: verifier fan-out, candidate ranking, decision

    A shallow embedding of
      - [orchestrator/pp2_client.py]  ([call_verifier], [_log_service_call]),
      - [orchestrator/fuse.py]        ([_identify_person_async], [identify_person]),
      - [orchestrator/pp1_client.py]  ([normalize_citation], [normalize_citations]),
    followed by the properties the design document states about them.

    Python floats are IEEE 754 binary64 values; they are modelled by the
    Standard Library's [spec_float] at precision 53, so that comparisons
    with NaN and the rounding of [top - second] are the ones the program
    performs. *)

From Stdlib Require Import ZArith List String Ascii Bool Lia.
From Stdlib Require Import Permutation Sorted DecimalString.
From Stdlib Require Import Floats.SpecFloat.
Import ListNotations.
Local Open Scope string_scope.
Local Open Scope Z_scope.

(* ================================================================== *)
(** * Python floats *)
(* ================================================================== *)

Module PyFloat.

Definition prec : Z := 53.
Definition emax : Z := 1024.

Definition float : Type := spec_float.

Definition sub : float -> float -> float := SFsub prec emax.
Definition mul : float -> float -> float := SFmul prec emax.
Definition div : float -> float -> float := SFdiv prec emax.

(** [x < y], [x <= y], [x == y]; [x >= y] is [le y x]. *)
Definition lt : float -> float -> bool := SFltb.
Definition le : float -> float -> bool := SFleb.
Definition eqb : float -> float -> bool := SFeqb.
Definition ge (x y : float) : bool := le y x.

Definition is_nan (x : float) : bool :=
  match x with S754_nan => true | _ => false end.

(** The float nearest to an integer (round half to even); an infinity
    when the integer is out of range. *)
Definition of_Z (z : Z) : float := binary_normalize prec emax z 0 false.

(** A decimal literal [n/d]: both operands are exact, so the division
    rounds once, as the literal does. *)
Definition ratio (n d : Z) : float := div (of_Z n) (of_Z d).

Definition zero : float := S754_zero false.      (* 0.0 *)
Definition one : float := of_Z 1.                (* 1.0 *)
Definition f0_5 : float := ratio 1 2.            (* 0.5 *)
Definition f0_9 : float := ratio 9 10.           (* 0.9 *)
Definition f0_05 : float := ratio 5 100.         (* 0.05 *)
Definition f1000 : float := of_Z 1000.           (* 1000 *)

End PyFloat.

(* ================================================================== *)
(** * Python values, exceptions, and the ambient state *)
(* ================================================================== *)

Module Py.

(** What [json.loads] and [yaml.safe_load] produce. A dict is kept as
    the list of its bindings; a lookup returns the first one. *)
Inductive value : Type :=
| VNone
| VBool (b : bool)
| VInt (z : Z)
| VFloat (f : PyFloat.float)
| VStr (s : string)
| VList (l : list value)
| VDict (d : list (string * value)).

Definition dict : Type := list (string * value).

Fixpoint lookup (k : string) (d : dict) : option value :=
  match d with
  | [] => None
  | (k', v) :: d' => if String.eqb k k' then Some v else lookup k d'
  end.

(** [d.get(k, default)], [d.get(k)] and [k in d]. *)
Definition get_or (d : dict) (k : string) (default : value) : value :=
  match lookup k d with Some v => v | None => default end.
Definition get (d : dict) (k : string) : value := get_or d k VNone.
Definition contains (k : string) (d : dict) : bool :=
  match lookup k d with Some _ => true | None => false end.

(** Truth value of an object: [bool(v)], [if v:], [not v]. *)
Definition truthy (v : value) : bool :=
  match v with
  | VNone => false
  | VBool b => b
  | VInt z => negb (z =? 0)
  | VFloat f => negb (PyFloat.eqb f PyFloat.zero)
  | VStr s => negb (String.eqb s "")
  | VList l => match l with [] => false | _ :: _ => true end
  | VDict d => match d with [] => false | _ :: _ => true end
  end.

(** [a or b]: [a] when it is true, else [b]. *)
Definition py_or (a b : value) : value := if truthy a then a else b.

(** Exceptions, by the classes the program's [except] clauses tell
    apart, each with its [str(e)]. All are subclasses of [Exception]. *)
Inductive exn_class : Type :=
| ValueError | TypeError | OverflowError
| TimeoutException          (* httpx.TimeoutException *)
| ConnectError              (* httpx.ConnectError *)
| OtherException.

Record exn : Type := mk_exn { exn_cls : exn_class; exn_str : string }.

Definition exn_class_eqb (a b : exn_class) : bool :=
  match a, b with
  | ValueError, ValueError | TypeError, TypeError
  | OverflowError, OverflowError | TimeoutException, TimeoutException
  | ConnectError, ConnectError | OtherException, OtherException => true
  | _, _ => false
  end.

(** A computation that returns or raises. *)
Inductive exc (A : Type) : Type :=
| Ok (a : A)
| Raise (e : exn).
Arguments Ok {A} a.
Arguments Raise {A} e.

(** The builtins whose algorithms are CPython's, not the repository's:
    parsing a string as a float ([None] when [float(s)] raises
    [ValueError]) and the [str()] of floats, lists and dicts. *)
Class Builtins : Type := {
  float_of_str : string -> option PyFloat.float;
  py_repr : value -> string
}.

Section Coercions.
Context {B : Builtins}.

(** [float(v)]. *)
Definition py_float (v : value) : exc PyFloat.float :=
  match v with
  | VNone => Raise (mk_exn TypeError "float() argument must be a string or a real number")
  | VBool b => Ok (if b then PyFloat.one else PyFloat.zero)
  | VInt z =>
      match PyFloat.of_Z z with
      | S754_infinity _ => Raise (mk_exn OverflowError "int too large to convert to float")
      | f => Ok f
      end
  | VFloat f => Ok f
  | VStr s =>
      match float_of_str s with
      | Some f => Ok f
      | None => Raise (mk_exn ValueError "could not convert string to float")
      end
  | VList _ | VDict _ =>
      Raise (mk_exn TypeError "float() argument must be a string or a real number")
  end.

(** [str(v)]. *)
Definition py_str (v : value) : string :=
  match v with
  | VNone => "None"
  | VBool true => "True"
  | VBool false => "False"
  | VInt z => NilZero.string_of_int (Z.to_int z)
  | VStr s => s
  | VFloat _ | VList _ | VDict _ => py_repr v
  end.
End Coercions.

End Py.
Export Py.

(** Mongo log documents. *)
Record service_log : Type := {
  sl_request_id : string;
  sl_ts : PyFloat.float;
  sl_service_type : string;
  sl_service_name : option string;
  sl_endpoint : string;
  sl_latency_ms : PyFloat.float;
  sl_status_code : option Z;
  sl_result : value;
  sl_timeout : bool;
  sl_error : option string
}.

Inductive decision : Type := identified | ambiguous | unknown.

Record identity : Type := {
  id_score : PyFloat.float;
  id_threshold : PyFloat.float;
  id_is_me : bool
}.

Record access_log : Type := {
  al_request_id : string;
  al_ts : PyFloat.float;
  al_route : string;
  al_decision : decision;
  al_identity : option identity;
  al_total_consulted : nat;
  al_timeouts : nat;
  al_timing_ms : PyFloat.float;
  al_status_code : Z
}.

(** What the program reads and writes besides its arguments: the clock
    ([time.time()], one reading per call) and the Mongo handle of
    [db/mongo.py], whose [get_db()] and [insert_one] may raise. *)
Record world : Type := {
  clock : nat -> PyFloat.float;
  ticks : nat;
  get_db_fault : option exn;
  insert_fault : option exn;
  service_logs : list service_log;
  access_logs : list access_log
}.

Module Eff.

Definition M (A : Type) : Type := world -> exc A * world.

Definition ret {A} (a : A) : M A := fun w => (Ok a, w).
Definition bind {A B} (c : M A) (k : A -> M B) : M B :=
  fun w => match c w with
           | (Ok a, w') => k a w'
           | (Raise e, w') => (Raise e, w')
           end.
Definition lift {A} (r : exc A) : M A := fun w => (r, w).

(** [try: c  except <classes accepted by handles> as e: h e]. *)
Definition try_except {A} (c : M A) (handles : exn -> bool) (h : exn -> M A) : M A :=
  fun w => match c w with
           | (Ok a, w') => (Ok a, w')
           | (Raise e, w') => if handles e then h e w' else (Raise e, w')
           end.

Definition time_time : M PyFloat.float :=
  fun w => (Ok (clock w (ticks w)),
            {| clock := clock w; ticks := S (ticks w);
               get_db_fault := get_db_fault w; insert_fault := insert_fault w;
               service_logs := service_logs w; access_logs := access_logs w |}).

(** [get_db()] of db/mongo.py; the handle itself is the world. *)
Definition get_db : M unit :=
  fun w => match get_db_fault w with
           | Some e => (Raise e, w)
           | None => (Ok tt, w)
           end.

Definition insert_service_log (entry : service_log) : M unit :=
  fun w => match insert_fault w with
           | Some e => (Raise e, w)
           | None => (Ok tt,
                      {| clock := clock w; ticks := ticks w;
                         get_db_fault := get_db_fault w; insert_fault := insert_fault w;
                         service_logs := service_logs w ++ [entry];
                         access_logs := access_logs w |})
           end.

Definition insert_access_log (entry : access_log) : M unit :=
  fun w => match insert_fault w with
           | Some e => (Raise e, w)
           | None => (Ok tt,
                      {| clock := clock w; ticks := ticks w;
                         get_db_fault := get_db_fault w; insert_fault := insert_fault w;
                         service_logs := service_logs w;
                         access_logs := access_logs w ++ [entry] |})
           end.

(** [except Exception]: every modelled class. *)
Definition any_exception (_ : exn) : bool := true.
Definition is_class (c : exn_class) (e : exn) : bool := exn_class_eqb (exn_cls e) c.

End Eff.
Import Eff.

Declare Scope eff_scope.
Delimit Scope eff_scope with eff.
Notation "x <- c ;; k" := (bind c (fun x => k))
  (at level 61, c at next level, right associativity) : eff_scope.
Notation "c ;;; k" := (bind c (fun _ => k))
  (at level 61, right associativity) : eff_scope.

Local Open Scope eff_scope.

(** Reify the outcome of a block: [Ok a] when it returns, [Raise e] when
    an exception leaves it. Used where a handler reads a local variable
    as it stands at the point of the exception. *)
Definition attempt {A} (c : M A) : M (exc A) :=
  fun w => let (r, w') := c w in (Ok r, w').

(** Sequencing of computations that return or raise, without state. *)
Definition exc_bind {A B} (r : exc A) (k : A -> exc B) : exc B :=
  match r with Ok a => k a | Raise e => Raise e end.

(* ================================================================== *)
(** * orchestrator/pp2_client.py *)
(* ================================================================== *)

(** The dict [result] of [call_verifier], with its keys. *)
Record outcome : Type := {
  service_name : option string;
  endpoint : string;
  latency_ms : PyFloat.float;
  status_code : option Z;
  result : value;
  timeout : bool;
  error : option string
}.

(** What [client.post] hands back: the status and what [response.json()]
    does with the body. *)
Record response : Type := {
  resp_status_code : Z;
  resp_json : exc value
}.

(** [(time.time() - start_time) * 1000] *)
Definition elapsed_ms (start_time now : PyFloat.float) : PyFloat.float :=
  PyFloat.mul (PyFloat.sub now start_time) PyFloat.f1000.

Definition _log_service_call (request_id : option string)
    (service_name_ : option string) (endpoint_ : string) (result_ : outcome) : M unit :=
  match request_id with
  | None => ret tt
  | Some rid =>
      try_except
        (get_db ;;;
         ts <- time_time ;;
         insert_service_log
           {| sl_request_id := rid;
              sl_ts := ts;
              sl_service_type := "pp2";
              sl_service_name := service_name_;
              sl_endpoint := endpoint_;
              sl_latency_ms := latency_ms result_;
              sl_status_code := status_code result_;
              sl_result := result result_;
              sl_timeout := timeout result_;
              sl_error := error result_ |})
        any_exception
        (fun _ => ret tt)
  end.

(** The three [except] clauses of [call_verifier], tried in order, on
    the dict [result_] as it is when the exception arrives. *)
Definition call_verifier_except (start_time : PyFloat.float)
    (request_id : option string) (service_name_ : option string) (url : string)
    (result_ : outcome) (e : exn) : M outcome :=
  now <- time_time ;;
  let latency := elapsed_ms start_time now in
  let updated :=
    if is_class TimeoutException e then
      {| service_name := service_name result_; endpoint := endpoint result_;
         latency_ms := latency; status_code := status_code result_;
         result := result result_; timeout := true; error := Some "timeout" |}
    else if is_class ConnectError e then
      {| service_name := service_name result_; endpoint := endpoint result_;
         latency_ms := latency; status_code := status_code result_;
         result := result result_; timeout := timeout result_;
         error := Some ("connection_error: " ++ exn_str e) |}
    else
      {| service_name := service_name result_; endpoint := endpoint result_;
         latency_ms := latency; status_code := status_code result_;
         result := result result_; timeout := timeout result_;
         error := Some (exn_str e) |} in
  _log_service_call request_id service_name_ url updated ;;;
  ret updated.

(** [post] is what [async with httpx.AsyncClient(...)] and
    [await client.post(url, json=payload)] do on this call. The [try]
    block is run in two steps, so that an exception reaches the handlers
    with the dict [result] as it stands: [result0] before
    [result.update], [result1] after it. *)
Definition call_verifier (post : exc response)
    (service_name_ : option string) (endpoint_ image_b64 : string)
    (timeout_s : Z) (request_id : option string) : M outcome :=
  let url := endpoint_ in
  start_time <- time_time ;;
  let result0 :=
    {| service_name := service_name_; endpoint := url;
       latency_ms := PyFloat.zero; status_code := None;
       result := VNone; timeout := false; error := None |} in
  sent <- attempt (response_ <- lift post ;;
                   now <- time_time ;;
                   ret (response_, now)) ;;
  match sent with
  | Raise e => call_verifier_except start_time request_id service_name_ url result0 e
  | Ok (response_, now) =>
      let latency := elapsed_ms start_time now in
      let data := match resp_json response_ with
                  | Ok d => d
                  | Raise _ => VNone
                  end in
      let result1 :=
        {| service_name := service_name result0; endpoint := endpoint result0;
           latency_ms := latency; status_code := Some (resp_status_code response_);
           result := data; timeout := timeout result0; error := error result0 |} in
      logged <- attempt (_log_service_call request_id service_name_ url result1) ;;
      match logged with
      | Raise e => call_verifier_except start_time request_id service_name_ url result1 e
      | Ok _ => ret result1
      end
  end.

(* ================================================================== *)
(** * orchestrator/pp1_client.py *)
(* ================================================================== *)

Section Pp1Client.
Context {B : Builtins}.

(** A dict of strings under construction: [d[k] = v]. *)
Fixpoint setitem (k v : string) (d : list (string * string)) : list (string * string) :=
  match d with
  | [] => [(k, v)]
  | (k', v') :: d' => if String.eqb k k' then (k, v) :: d' else (k', v') :: setitem k v d'
  end.

Fixpoint getitem (k : string) (d : list (string * string)) : option string :=
  match d with
  | [] => None
  | (k', v) :: d' => if String.eqb k k' then Some v else getitem k d'
  end.

Definition normalize_citation (citation : value) : option (list (string * string)) :=
  match citation with
  | VDict c =>
      let normalized := [] in
      let doc := py_or (get c "doc")
                   (py_or (get c "document") (py_or (get c "title") (get c "name"))) in
      if negb (truthy doc) then None
      else
        let normalized := setitem "doc" (py_str doc) normalized in
        let page := py_or (get c "page") (get c "p") in
        let section := py_or (get c "section")
                         (py_or (get c "sec") (get c "section_number")) in
        let normalized :=
          if truthy page then setitem "page" (py_str page) normalized
          else if truthy section then setitem "section" (py_str section) normalized
          else normalized in
        let url := py_or (get c "url") (py_or (get c "link") (get c "href")) in
        let normalized :=
          if truthy url then setitem "url" (py_str url) normalized
          else setitem "url" "" normalized in
        Some normalized
  | _ => None
  end.

(** [if normalized:] holds of a dict with at least one key. *)
Fixpoint normalize_each (citations : list value) : list (list (string * string)) :=
  match citations with
  | [] => []
  | citation :: rest =>
      match normalize_citation citation with
      | Some (b :: n) => (b :: n) :: normalize_each rest
      | _ => normalize_each rest
      end
  end.

Definition normalize_citations (citations : value) : list (list (string * string)) :=
  if negb (truthy citations) then []
  else match citations with
       | VDict _ =>
           match normalize_citation citations with
           | Some (b :: n) => [b :: n]
           | _ => []
           end
       | VList l => normalize_each l
       | _ => []
       end.
End Pp1Client.

(* ================================================================== *)
(** * orchestrator/fuse.py *)
(* ================================================================== *)

(** An entry of [registry["pp2"]]. [name] and [endpoint_verify] are
    strings where they are present, and [None] stands for the absent
    key; an entry whose name or endpoint is written as a YAML null is
    outside this type. [active] and [threshold] keep the YAML value,
    null included, which the program tests for truth and passes to
    [float()]. *)
Record descriptor : Type := {
  d_name : option string;
  d_endpoint_verify : option string;
  d_active : option value;
  d_threshold : option value
}.

(** An element of [candidates]. *)
Record candidate : Type := {
  c_is_me : bool;
  c_score : PyFloat.float;
  c_threshold : PyFloat.float;
  c_timing_ms : PyFloat.float;
  c_service : option string
}.

(** The dict [identify_person] returns. *)
Record id_result : Type := {
  r_decision : decision;
  r_identity : option identity;
  r_candidates : list candidate;
  r_timing_ms : PyFloat.float;
  r_request_id : string
}.

(** What one request reads from outside: [uuid.uuid4().hex], the two
    [load_registry()] results (in [_identify_person_async] and in
    [identify_person]), and, for the task dispatched at each position,
    what awaiting it gives: an outcome, or the exception it raised. The
    tasks run concurrently, in an order the event loop chooses; the
    clock readings they make and the documents they add to
    [service_logs] are [call_verifier]'s, are stated for one call on its
    own world ([adapter_task] below) and are not threaded through
    [identify_person]: the world after a run of [identify_person] holds
    what the orchestrator itself did. Statements about that world speak
    of [access_logs], which no task writes; [service_logs] appears only
    where [get_db()] raises, for the tasks as for the orchestrator. *)
Record env : Type := {
  uuid4_hex : string;
  registry_async : list descriptor;
  registry_sync : list descriptor;
  verify : nat -> option string -> string -> exc outcome
}.

(** [v.get("active", True)] *)
Definition is_active (v : descriptor) : bool :=
  match d_active v with
  | None => true
  | Some a => truthy a
  end.

Definition option_string_eqb (a b : option string) : bool :=
  match a, b with
  | None, None => true
  | Some x, Some y => String.eqb x y
  | _, _ => false
  end.

(** fuse.py 29-39: one task [(service_name, endpoint)] per descriptor
    that is active and has a non-empty endpoint. *)
Fixpoint build_tasks (pp2_list : list descriptor) : list (option string * string) :=
  match pp2_list with
  | [] => []
  | v :: rest =>
      if negb (is_active v) then build_tasks rest
      else
        match d_endpoint_verify v with
        | None | Some "" => build_tasks rest
        | Some endpoint_ => (d_name v, endpoint_) :: build_tasks rest
        end
  end.

(** [asyncio.gather] over the tasks with [return_exceptions=True]: one
    entry per task, in task order. *)
Fixpoint gather (run : nat -> option string -> string -> exc outcome)
    (i : nat) (tasks : list (option string * string)) : list (exc outcome) :=
  match tasks with
  | [] => []
  | (name_, endpoint_) :: rest => run i name_ endpoint_ :: gather run (S i) rest
  end.

(** fuse.py 50-64: the record written for an exception at position [i]. *)
Definition exception_outcome (pp2_list : list descriptor) (i : nat) (e : exn) : outcome :=
  let active_services := filter is_active pp2_list in
  {| service_name :=
       match nth_error active_services i with
       | Some v => match d_name v with
                   | Some n => Some n
                   | None => Some "unknown"
                   end
       | None => Some "unknown"
       end;
     endpoint :=
       match nth_error active_services i with
       | Some v => match d_endpoint_verify v with
                   | Some u => u
                   | None => ""
                   end
       | None => ""
       end;
     error := Some (exn_str e);
     timeout := false;
     result := VNone;
     status_code := None;
     latency_ms := PyFloat.zero |}.

Fixpoint process_results (pp2_list : list descriptor) (i : nat)
    (results : list (exc outcome)) : list outcome :=
  match results with
  | [] => []
  | Raise e :: rest => exception_outcome pp2_list i e :: process_results pp2_list (S i) rest
  | Ok r :: rest => r :: process_results pp2_list (S i) rest
  end.

(** The task [call_verifier(service_name, endpoint, image_b64, timeout_s,
    request_id=req_id)] of position [i], where [posts i] is what the
    transport does for it. *)
Definition adapter_task (posts : nat -> exc response) (image_b64 : string)
    (timeout_s : Z) (req_id : string) (w : world)
    : nat -> option string -> string -> exc outcome :=
  fun i name_ endpoint_ =>
    fst (call_verifier (posts i) name_ endpoint_ image_b64 timeout_s (Some req_id) w).

Definition _identify_person_async (E : env) : list outcome :=
  let pp2_list := registry_async E in
  let tasks := build_tasks pp2_list in
  match tasks with
  | [] => []
  | _ :: _ =>
      let results := gather (verify E) 0 tasks in
      process_results pp2_list 0 results
  end.

Section Fuse.
Context {B : Builtins}.

(** fuse.py 100-109: the four conversions, and the defaults when one of
    them raises [ValueError] or [TypeError]. Any other exception leaves
    the block. *)
Definition coerce_fields (res : dict)
  : exc (bool * PyFloat.float * PyFloat.float * PyFloat.float) :=
  let attempt_ :=
    let is_me := truthy (get_or res "is_me" (VBool false)) in
    exc_bind (py_float (get_or res "score" (VInt 0))) (fun score =>
    exc_bind (py_float (get_or res "threshold" (VFloat PyFloat.f0_5))) (fun threshold =>
    exc_bind (py_float (get_or res "timing_ms" (VInt 0))) (fun timing_ms =>
    Ok (is_me, score, threshold, timing_ms)))) in
  match attempt_ with
  | Ok fields => Ok fields
  | Raise e =>
      if is_class ValueError e || is_class TypeError e
      then Ok (false, PyFloat.zero, PyFloat.f0_5, PyFloat.zero)
      else Raise e
  end.

(** fuse.py 98-117, one turn of the loop: the candidate appended for
    [r], if any. *)
Definition candidate_of (r : outcome) : exc (option candidate) :=
  match result r with
  | VDict res =>
      if contains "score" res then
        exc_bind (coerce_fields res) (fun '(is_me, score, threshold, timing_ms) =>
        Ok (Some {| c_is_me := is_me; c_score := score; c_threshold := threshold;
                    c_timing_ms := timing_ms; c_service := service_name r |}))
      else Ok None
  | _ => Ok None
  end.

Fixpoint build_candidates (results : list outcome) : exc (list candidate) :=
  match results with
  | [] => Ok []
  | r :: rest =>
      exc_bind (candidate_of r) (fun oc =>
      exc_bind (build_candidates rest) (fun cs =>
      Ok (match oc with Some c => c :: cs | None => cs end)))
  end.

(** [candidates.sort(key=lambda x: x["score"], reverse=True)].
    [list.sort] compares keys with [<] only and is stable, also under
    [reverse=True]. It is modelled by a stable insertion: an element
    moves behind those to its right whose score is strictly greater.
    When no score is NaN, [<] orders the keys totally and every stable
    sort returns this same list ([ranking_unique]). With a NaN key the
    list that [list.sort] returns depends on the comparisons its merge
    strategy happens to make, and this definition is [list.sort] only on
    the lists in which no element is [<] its right neighbour: those
    [list.sort] takes for a single run and leaves as they are
    ([sort_by_score_single_run]). On other lists with a NaN key (scores
    1.0, NaN, 1.0, 2.0 for one) the two differ, and no statement below
    evaluates the definition there: a statement either holds whichever
    rearrangement of the candidates the sort returns for their scores,
    or assumes that no score is NaN, or is about a single run. *)
Fixpoint insert_by_score (x : candidate) (l : list candidate) : list candidate :=
  match l with
  | [] => [x]
  | y :: l' =>
      if PyFloat.lt (c_score x) (c_score y) then y :: insert_by_score x l'
      else x :: y :: l'
  end.

Definition sort_by_score (l : list candidate) : list candidate :=
  fold_right insert_by_score [] l.

(** fuse.py 128-137: the registry threshold of the first descriptor
    named like [top]'s service. *)
Fixpoint service_threshold_loop (pp2_list : list descriptor) (top : candidate)
  : option PyFloat.float :=
  match pp2_list with
  | [] => None
  | v :: rest =>
      if option_string_eqb (d_name v) (c_service top) then
        match py_float (match d_threshold v with
                        | Some t => t
                        | None => VFloat PyFloat.f0_9
                        end) with
        | Ok f => Some f
        | Raise _ => Some PyFloat.f0_9
        end
      else service_threshold_loop rest top
  end.

Definition resolve_threshold (pp2_list : list descriptor) (top : candidate) : PyFloat.float :=
  match service_threshold_loop pp2_list top with
  | Some f => f
  | None => PyFloat.f0_9
  end.

(** fuse.py 121-160, on the sorted list. *)
Definition decide (pp2_list : list descriptor) (delta : PyFloat.float)
    (candidates : list candidate) : decision * option identity :=
  match candidates with
  | [] => (unknown, None)
  | top :: _ =>
      let service_threshold := resolve_threshold pp2_list top in
      if c_is_me top && PyFloat.ge (c_score top) service_threshold then
        if (1 <? List.length candidates)%nat
           && match nth_error candidates 1 with
              | Some second => PyFloat.le (PyFloat.sub (c_score top) (c_score second)) delta
              | None => false
              end
        then (ambiguous, None)
        else (identified,
              Some {| id_score := c_score top;
                      id_threshold := service_threshold;
                      id_is_me := c_is_me top |})
      else if PyFloat.ge (c_score top) service_threshold then (unknown, None)
      else (unknown, None)
  end.

Definition count_timeouts (results : list outcome) : nat :=
  List.length (filter timeout results).

Definition identify_person (E : env) (image_b64 : string) (timeout_s : Z)
    (delta : PyFloat.float) : M id_result :=
  let req_id := uuid4_hex E in
  ts0 <- time_time ;;
  let results := _identify_person_async E in
  let pp2_list := registry_sync E in
  candidates <- lift (build_candidates results) ;;
  let candidates := sort_by_score candidates in
  let '(decision_, identity_) := decide pp2_list delta candidates in
  now <- time_time ;;
  let timing_ms := elapsed_ms ts0 now in
  get_db ;;;
  try_except
    (ts <- time_time ;;
     insert_access_log
       {| al_request_id := req_id;
          al_ts := ts;
          al_route := "/identify-and-answer";
          al_decision := decision_;
          al_identity := identity_;
          al_total_consulted := List.length results;
          al_timeouts := count_timeouts results;
          al_timing_ms := timing_ms;
          al_status_code := 200 |})
    any_exception
    (fun _ => ret tt) ;;;
  ret {| r_decision := decision_;
         r_identity := identity_;
         r_candidates := candidates;
         r_timing_ms := timing_ms;
         r_request_id := req_id |}.

(** The default arguments of [identify_person]. *)
Definition default_timeout_s : Z := 15.
Definition default_delta : PyFloat.float := PyFloat.f0_05.

End Fuse.

(* ================================================================== *)
(** * The design document's words, as definitions *)
(* ================================================================== *)

Section SpecWords.
Context {B : Builtins}.

(** §3: the authoritative threshold is the Registry threshold of the
    descriptor named like the candidate's service, default 0.9. *)
Definition spec_tau (pp2_list : list descriptor) (service : option string) : PyFloat.float :=
  match find (fun v => option_string_eqb (d_name v) service) pp2_list with
  | None => PyFloat.f0_9
  | Some v =>
      match d_threshold v with
      | None => PyFloat.f0_9
      | Some t => match py_float t with
                  | Ok f => f
                  | Raise _ => PyFloat.f0_9
                  end
      end
  end.

(** §4.3 steps 3 to 7, on the ranked candidates, for a threshold [tau]. *)
Definition spec_decide (tau : option string -> PyFloat.float) (delta : PyFloat.float)
    (ranked : list candidate) : decision * option identity :=
  match ranked with
  | [] => (unknown, None)
  | top :: rest =>
      if c_is_me top && PyFloat.ge (c_score top) (tau (c_service top)) then
        match rest with
        | second :: _ =>
            if PyFloat.le (PyFloat.sub (c_score top) (c_score second)) delta
            then (ambiguous, None)
            else (identified,
                  Some {| id_score := c_score top;
                          id_threshold := tau (c_service top);
                          id_is_me := true |})
        | [] =>
            (identified,
             Some {| id_score := c_score top;
                     id_threshold := tau (c_service top);
                     id_is_me := true |})
        end
      else (unknown, None)
  end.

(** §3 read field by field: each of the four fields comes from the
    payload when it converts, and takes its own default when it does
    not. *)
Definition spec_coerce_each (res : dict) (service : option string) : candidate :=
  {| c_is_me := truthy (get_or res "is_me" (VBool false));
     c_score := match py_float (get_or res "score" (VInt 0)) with
                | Ok f => f
                | Raise _ => PyFloat.zero
                end;
     c_threshold := match py_float (get_or res "threshold" (VFloat PyFloat.f0_5)) with
                    | Ok f => f
                    | Raise _ => PyFloat.f0_5
                    end;
     c_timing_ms := match py_float (get_or res "timing_ms" (VInt 0)) with
                    | Ok f => f
                    | Raise _ => PyFloat.zero
                    end;
     c_service := service |}.

(** [float(v)] returns, or raises one of the two exceptions the block
    catches. In this model the only other one is the [OverflowError] of
    an integer too large for a float. *)
Definition converts_or_rejects (v : value) : Prop :=
  match py_float v with
  | Ok _ => True
  | Raise e => is_class ValueError e || is_class TypeError e = true
  end.
End SpecWords.

(** What an exception handled by [call_verifier] leaves in the outcome. *)
Definition error_text (e : exn) : string :=
  if is_class TimeoutException e then "timeout"
  else if is_class ConnectError e then "connection_error: " ++ exn_str e
  else exn_str e.

(** [if not endpoint: continue] does not fire. *)
Definition has_endpoint (v : descriptor) : bool :=
  match d_endpoint_verify v with
  | None | Some "" => false
  | Some _ => true
  end.

(** §3: how many of {payload non-null, timed_out, error non-null} hold. *)
Definition signals (o : outcome) : nat :=
  ((match result o with VNone => 0 | _ => 1 end)
   + (if timeout o then 1 else 0)
   + (match error o with None => 0 | Some _ => 1 end))%nat.

(** No later candidate has a strictly greater score than an earlier one. *)
Definition not_below (a b : candidate) : Prop :=
  PyFloat.lt (c_score a) (c_score b) = false.

Definition ranked_descending (l : list candidate) : Prop :=
  StronglySorted not_below l.

(** Candidates of equal score keep their relative order. *)
Definition same_order_among_equals (l l' : list candidate) : Prop :=
  forall s : PyFloat.float,
    filter (fun c => PyFloat.eqb (c_score c) s) l'
    = filter (fun c => PyFloat.eqb (c_score c) s) l.

Definition no_nan_score (l : list candidate) : Prop :=
  Forall (fun c => PyFloat.is_nan (c_score c) = false) l.

(** A key is present in a citation under one of its aliases. *)
Definition has_key (keys : list string) (c : dict) : bool :=
  existsb (fun k => contains k c) keys.

Definition doc_of (c : dict) : value :=
  py_or (get c "doc") (py_or (get c "document") (py_or (get c "title") (get c "name"))).
Definition page_of (c : dict) : value := py_or (get c "page") (get c "p").
Definition section_of (c : dict) : value :=
  py_or (get c "section") (py_or (get c "sec") (get c "section_number")).

(** A candidate with another self-reported threshold. *)
Definition with_threshold (g : candidate -> PyFloat.float) (c : candidate) : candidate :=
  {| c_is_me := c_is_me c; c_score := c_score c; c_threshold := g c;
     c_timing_ms := c_timing_ms c; c_service := c_service c |}.

(* ================================================================== *)
(** * Sample inputs *)
(* ================================================================== *)

(** An interpretation of the builtins for running the model on inputs
    that hold no string to convert and no float or container to print. *)
Definition sample_builtins : Builtins :=
  {| float_of_str := fun _ => None; py_repr := fun _ => "" |}.

Definition quiet_world : world :=
  {| clock := fun _ => PyFloat.zero; ticks := 0;
     get_db_fault := None; insert_fault := None;
     service_logs := []; access_logs := [] |}.

Definition verifier_A : descriptor :=
  {| d_name := Some "A"; d_endpoint_verify := Some "http://a/verify";
     d_active := Some (VBool true); d_threshold := Some (VFloat PyFloat.f0_9) |}.
Definition verifier_B : descriptor :=
  {| d_name := Some "B"; d_endpoint_verify := Some "http://b/verify";
     d_active := None; d_threshold := None |}.

Definition payload (is_me : bool) (score : value) : value :=
  VDict [("is_me", VBool is_me); ("score", score);
         ("threshold", VFloat PyFloat.f0_5); ("timing_ms", VInt 12)].

Definition replied (name_ : option string) (endpoint_ : string) (body : value) : outcome :=
  {| service_name := name_; endpoint := endpoint_; latency_ms := PyFloat.zero;
     status_code := Some 200; result := body; timeout := false; error := None |}.

(** §8: A answers 0.97, B answers 0.95, both with is_me true. *)
Definition two_close_verifiers : env :=
  {| uuid4_hex := "0123456789abcdef0123456789abcdef";
     registry_async := [verifier_A; verifier_B];
     registry_sync := [verifier_A; verifier_B];
     verify := fun i name_ endpoint_ =>
       Ok (replied name_ endpoint_
             (payload true (VFloat (match i with
                                     | O => PyFloat.ratio 97 100
                                     | _ => PyFloat.ratio 95 100
                                     end)))) |}.

(** An active entry whose endpoint is not filled in, followed by B; the
    call to B raises. *)
Definition verifier_A_no_endpoint : descriptor :=
  {| d_name := Some "A"; d_endpoint_verify := None;
     d_active := Some (VBool true); d_threshold := Some (VFloat PyFloat.f0_9) |}.

Definition faulting_fanout : env :=
  {| uuid4_hex := "0123456789abcdef0123456789abcdef";
     registry_async := [verifier_A_no_endpoint; verifier_B];
     registry_sync := [verifier_A_no_endpoint; verifier_B];
     verify := fun _ _ _ => Raise (mk_exn OtherException "boom") |}.

(** §8: A alone, answering [score] with [is_me]. *)
Definition one_verifier (is_me : bool) (score : PyFloat.float) : env :=
  {| uuid4_hex := "0123456789abcdef0123456789abcdef";
     registry_async := [verifier_A];
     registry_sync := [verifier_A];
     verify := fun _ name_ endpoint_ =>
       Ok (replied name_ endpoint_ (payload is_me (VFloat score))) |}.

(** §8: A and B, one timing out and one failing to connect, as the
    adapter reports them. *)
Definition all_failing : env :=
  {| uuid4_hex := "0123456789abcdef0123456789abcdef";
     registry_async := [verifier_A; verifier_B];
     registry_sync := [verifier_A; verifier_B];
     verify :=
       adapter_task
         (fun i => match i with
                   | O => Raise (mk_exn TimeoutException "timed out")
                   | _ => Raise (mk_exn ConnectError "connection refused")
                   end)
         "img" 15 "0123456789abcdef0123456789abcdef" quiet_world |}.

Definition ranked_A : candidate :=
  {| c_is_me := true; c_score := PyFloat.ratio 97 100; c_threshold := PyFloat.f0_5;
     c_timing_ms := PyFloat.of_Z 12; c_service := Some "A" |}.
Definition ranked_B : candidate :=
  {| c_is_me := true; c_score := PyFloat.ratio 95 100; c_threshold := PyFloat.f0_5;
     c_timing_ms := PyFloat.of_Z 12; c_service := Some "B" |}.

(** What [identify_person] returns for [two_close_verifiers] with the
    default delta, and with delta 0. *)
Definition two_close_result : id_result :=
  {| r_decision := ambiguous; r_identity := None;
     r_candidates := [ranked_A; ranked_B];
     r_timing_ms := PyFloat.zero;
     r_request_id := "0123456789abcdef0123456789abcdef" |}.

Definition two_close_result_delta_0 : id_result :=
  {| r_decision := identified;
     r_identity := Some {| id_score := PyFloat.ratio 97 100;
                           id_threshold := PyFloat.f0_9;
                           id_is_me := true |};
     r_candidates := [ranked_A; ranked_B];
     r_timing_ms := PyFloat.zero;
     r_request_id := "0123456789abcdef0123456789abcdef" |}.

(** A answers is_me true, score 0.97, threshold 0.9 and a null timing_ms. *)
Definition null_timing_fields : dict :=
  [("is_me", VBool true); ("score", VFloat (PyFloat.ratio 97 100));
   ("threshold", VFloat PyFloat.f0_9); ("timing_ms", VNone)].
Definition null_timing_outcome : outcome :=
  replied (Some "A") "http://a/verify" (VDict null_timing_fields).

Definition well_formed_fields : dict :=
  [("is_me", VBool true); ("score", VFloat (PyFloat.ratio 97 100));
   ("threshold", VFloat PyFloat.f0_5); ("timing_ms", VInt 12)].
Definition well_formed_outcome : outcome :=
  replied (Some "A") "http://a/verify" (VDict well_formed_fields).

(** Three candidates with scores 1.0, NaN, 2.0, in dispatch order. *)
Definition scored (name_ : string) (score : PyFloat.float) : candidate :=
  {| c_is_me := true; c_score := score; c_threshold := PyFloat.f0_5;
     c_timing_ms := PyFloat.zero; c_service := Some name_ |}.
Definition nan_in_the_middle : list candidate :=
  [scored "A" (PyFloat.of_Z 1); scored "B" S754_nan; scored "C" (PyFloat.of_Z 2)].

(** {"doc": "Civil Code", "page": 0, "section": "3"} and the same with
    page 12. *)
Definition citation_page_0 : dict :=
  [("doc", VStr "Civil Code"); ("page", VInt 0); ("section", VStr "3")].
Definition citation_page_12 : dict :=
  [("doc", VStr "Civil Code"); ("page", VInt 12); ("section", VStr "3")].

Definition page_keys : list string := ["page"; "p"].
Definition section_keys : list string := ["section"; "sec"; "section_number"].

(* ================================================================== *)
(** * orchestrator/pp1_client.py: ask_normativa *)
(* ================================================================== *)

(** What [requests.post(endpoint, json=payload, timeout=timeout_s)] does:
    it returns a response, raises [requests.Timeout], or raises another
    exception, of which the program keeps [str(e)]. *)
Inductive requests_post : Type :=
| Responded (r : response)
| RaisedTimeout
| RaisedException (text : string).

(** A normalized citation, and a list of them, as the Python objects
    stored back into the response body. *)
Definition citation_value (n : list (string * string)) : value :=
  VDict (map (fun kv => (fst kv, VStr (snd kv))) n).

Definition citations_value (l : list (list (string * string))) : value :=
  VList (map citation_value l).

(** [d[k] = v] on a JSON object. *)
Fixpoint dict_setitem (k : string) (v : value) (d : dict) : dict :=
  match d with
  | [] => [(k, v)]
  | (k', v') :: d' =>
      if String.eqb k k' then (k, v) :: d' else (k', v') :: dict_setitem k v d'
  end.

Section AskNormativa.
Context {B : Builtins}.

(** pp1_client.py 104-110: the body as JSON, its citations normalized;
    [None] when [r.json()] raises. *)
Definition normalized_body (r : response) : value :=
  match resp_json r with
  | Raise _ => VNone
  | Ok data =>
      match data with
      | VDict d =>
          if contains "citations" d
          then VDict (dict_setitem "citations"
                        (citations_value (normalize_citations (get d "citations"))) d)
          else data
      | _ => data
      end
  end.

Definition ask_normativa (post : requests_post) (service_name_ : option string)
    (endpoint_ question : string) (timeout_s : Z) : M outcome :=
  start <- time_time ;;
  match post with
  | Responded r =>
      now <- time_time ;;
      let latency := elapsed_ms start now in
      let data := normalized_body r in
      ret {| service_name := service_name_; endpoint := endpoint_;
             latency_ms := latency; status_code := Some (resp_status_code r);
             result := data; timeout := false; error := None |}
  | RaisedTimeout =>
      now <- time_time ;;
      let latency := elapsed_ms start now in
      ret {| service_name := service_name_; endpoint := endpoint_;
             latency_ms := latency; status_code := None;
             result := VNone; timeout := true; error := Some "timeout" |}
  | RaisedException text =>
      now <- time_time ;;
      let latency := elapsed_ms start now in
      ret {| service_name := service_name_; endpoint := endpoint_;
             latency_ms := latency; status_code := None;
             result := VNone; timeout := false; error := Some text |}
  end.

End AskNormativa.

(* ================================================================== *)
(** * orchestrator/fuse.py: ask_normativa_tool *)
(* ================================================================== *)

(** An entry of [registry["pp1"]]: its name ([None] when absent) and its
    endpoint. *)
Record pp1_descriptor : Type := {
  p_name : option string;
  p_endpoint : string
}.

(** The dict [ask_normativa_tool] returns. *)
Record normativa_answer : Type := {
  a_text : value;
  a_citations : value
}.

(** What one question reads from outside: [uuid.uuid4().hex], the
    registry's ["pp1"] list, and what the POST to the first entry does. *)
Record normativa_env : Type := {
  n_uuid4_hex : string;
  registry_pp1 : list pp1_descriptor;
  normativa_post : requests_post
}.

Section AskNormativaTool.
Context {B : Builtins}.

Definition ask_normativa_tool (E : normativa_env) (question : string) (timeout_s : Z)
  : M normativa_answer :=
  let req_id := n_uuid4_hex E in
  ts0 <- time_time ;;
  let pp1 := registry_pp1 E in
  match pp1 with
  | [] => ret {| a_text := VStr "No PP1 configured"; a_citations := VList [] |}
  | svc :: _ =>
      resp <- ask_normativa (normativa_post E) (p_name svc) (p_endpoint svc)
                question timeout_s ;;
      get_db ;;;
      try_except
        (ts <- time_time ;;
         insert_service_log
           {| sl_request_id := req_id;
              sl_ts := ts;
              sl_service_type := "pp1";
              sl_service_name := p_name svc;
              sl_endpoint := p_endpoint svc;
              sl_latency_ms := latency_ms resp;
              sl_status_code := status_code resp;
              sl_result := result resp;
              sl_timeout := timeout resp;
              sl_error := error resp |})
        any_exception
        (fun _ => ret tt) ;;;
      let data := py_or (result resp) (VDict []) in
      ret {| a_text := match data with
                       | VDict d => get d "text"
                       | _ => VNone
                       end;
             a_citations := match data with
                            | VDict d => get d "citations"
                            | _ => VList []
                            end |}
  end.

End AskNormativaTool.

(* ================================================================== *)
(** * db/mongo.py *)
(* ================================================================== *)

(** The module on its own, with its global client. In the worlds above,
    [get_db_fault] stands for an exception leaving this [get_db]. *)
Module Mongo.

(** An exception of the driver, by what [is_healthy] tells apart:
    whether it is a [ServerSelectionTimeoutError]. *)
Record pymongo_error : Type := {
  is_server_selection_timeout : bool;
  pymongo_str : string
}.

Inductive direction : Type := ASCENDING | DESCENDING.

(** One [db.<collection>.create_index(keys, name=name)]. *)
Record index_decl : Type := {
  ix_collection : string;
  ix_keys : list (string * direction);
  ix_name : string
}.

(** The driver and the server behind it, as far as the module calls
    them. Each call is numbered, so that the same call may succeed at
    one time and fail at another. A client is known by its handle. *)
Record driver : Type := {
  MongoClient : nat -> pymongo_error + nat;
  admin_command_ping : nat -> nat -> pymongo_error + unit;
  create_index : nat -> nat -> index_decl -> pymongo_error + string
}.

(** The module's global [_client], the number of driver calls made so
    far, how many of them were [MongoClient(...)], and the
    [create_index] calls issued. *)
Record module_state : Type := {
  _client : option nat;
  calls : nat;
  constructions : nat;
  issued : list index_decl
}.

Definition run (A : Type) : Type := module_state -> (pymongo_error + A) * module_state.

Definition get_client (D : driver) : run nat :=
  fun st =>
    match _client st with
    | Some c => (inr c, st)
    | None =>
        match MongoClient D (calls st) with
        | inr c =>
            (inr c, {| _client := Some c; calls := S (calls st);
                       constructions := S (constructions st); issued := issued st |})
        | inl e =>
            (inl e, {| _client := None; calls := S (calls st);
                       constructions := S (constructions st); issued := issued st |})
        end
    end.

(** [get_client()[DB_NAME]]: the database of the one client. *)
Definition get_db (D : driver) : run nat := get_client D.

Definition is_healthy (D : driver) : run bool :=
  fun st =>
    match get_client D st with
    | (inr c, st1) =>
        let st2 := {| _client := _client st1; calls := S (calls st1);
                      constructions := constructions st1; issued := issued st1 |} in
        match admin_command_ping D (calls st1) c with
        | inr _ => (inr true, st2)
        | inl e => if is_server_selection_timeout e then (inr false, st2) else (inl e, st2)
        end
    | (inl e, st1) =>
        if is_server_selection_timeout e then (inr false, st1) else (inl e, st1)
    end.

(** mongo.py 31-38, in the order of the calls. *)
Definition declared_indexes : list index_decl :=
  [ {| ix_collection := "access_logs"; ix_keys := [("ts", DESCENDING)];
       ix_name := "idx_access_ts" |};
    {| ix_collection := "access_logs";
       ix_keys := [("user.type", ASCENDING); ("ts", DESCENDING)];
       ix_name := "idx_access_user_type_ts" |};
    {| ix_collection := "access_logs";
       ix_keys := [("route", ASCENDING); ("ts", DESCENDING)];
       ix_name := "idx_access_route_ts" |};
    {| ix_collection := "access_logs";
       ix_keys := [("decision", ASCENDING); ("ts", DESCENDING)];
       ix_name := "idx_access_decision_ts" |};
    {| ix_collection := "service_logs";
       ix_keys := [("service_name", ASCENDING); ("ts", DESCENDING)];
       ix_name := "idx_service_name_ts" |};
    {| ix_collection := "service_logs";
       ix_keys := [("service_type", ASCENDING); ("ts", DESCENDING)];
       ix_name := "idx_service_type_ts" |};
    {| ix_collection := "service_logs";
       ix_keys := [("status_code", ASCENDING); ("ts", DESCENDING)];
       ix_name := "idx_service_status_ts" |} ].

(** The statements of the [try] block, one after the other; the first
    exception ends the block. *)
Fixpoint create_all (D : driver) (db : nat) (decls : list index_decl)
  : module_state -> option pymongo_error * module_state :=
  fun st =>
    match decls with
    | [] => (None, st)
    | d :: rest =>
        let st1 := {| _client := _client st; calls := S (calls st);
                      constructions := constructions st;
                      issued := issued st ++ [d] |} in
        match create_index D (calls st) db d with
        | inr _ => create_all D db rest st1
        | inl e => (Some e, st1)
        end
    end.

Definition ensure_indexes (D : driver) : run unit :=
  fun st =>
    match get_db D st with
    | (inl e, st1) => (inl e, st1)
    | (inr db, st1) =>
        match create_all D db declared_indexes st1 with
        | (_, st2) => (inr tt, st2)
        end
    end.

(** A call of one of the module's functions, and a sequence of them. *)
Inductive call : Type :=
| call_get_client | call_get_db | call_is_healthy | call_ensure_indexes.

Definition step (D : driver) (c : call) (st : module_state) : module_state :=
  match c with
  | call_get_client => snd (get_client D st)
  | call_get_db => snd (get_db D st)
  | call_is_healthy => snd (is_healthy D st)
  | call_ensure_indexes => snd (ensure_indexes D st)
  end.

Definition steps (D : driver) (cs : list call) (st : module_state) : module_state :=
  fold_left (fun s c => step D c s) cs st.

Definition initial : module_state :=
  {| _client := None; calls := 0; constructions := 0; issued := [] |}.

End Mongo.

(* ================================================================== *)
(** * Further notions used in the statements *)
(* ================================================================== *)

(** A descriptor for which fuse.py 30-39 creates a task, and the task. *)
Definition dispatchable (v : descriptor) : bool := is_active v && has_endpoint v.

Definition task_of (v : descriptor) : option string * string :=
  (d_name v, match d_endpoint_verify v with Some u => u | None => "" end).

(** The outcome's [result] is a dict with a "score" key (fuse.py 99). *)
Definition has_score_payload (o : outcome) : bool :=
  match result o with
  | VDict res => contains "score" res
  | _ => false
  end.

(** The keys of a normalized citation, in insertion order. *)
Definition well_formed_citation (n : list (string * string)) : Prop :=
  map fst n = ["doc"; "url"]
  \/ map fst n = ["doc"; "page"; "url"]
  \/ map fst n = ["doc"; "section"; "url"].

(** Neither an infinity nor NaN. *)
Definition is_finite (x : PyFloat.float) : bool :=
  match x with
  | S754_zero _ | S754_finite _ _ _ => true
  | S754_infinity _ | S754_nan => false
  end.

(** Two worlds in which the clock reads the same from now on. *)
Definition same_clock (w w' : world) : Prop :=
  ticks w = ticks w' /\ forall n, clock w n = clock w' n.

Definition url_of (c : dict) : value :=
  py_or (get c "url") (py_or (get c "link") (get c "href")).

(** [str()] of a float, list or dict is never the empty string. *)
Definition repr_nonempty (B : Builtins) : Prop :=
  forall v : value, py_repr v <> "".

(** The POST gave no usable body: it raised, or the body is not JSON,
    or it is a false value (null, an empty object or list, 0, ""). *)
Definition answered_nothing (post : requests_post) : bool :=
  match post with
  | Responded r =>
      match resp_json r with
      | Ok v => negb (truthy v)
      | Raise _ => true
      end
  | RaisedTimeout | RaisedException _ => true
  end.

(* ================================================================== *)
(** * Sample inputs, continued *)
(* ================================================================== *)

(** Builtins whose [str()] of a float, list or dict is not empty. *)
Definition printing_builtins : Builtins :=
  {| float_of_str := fun _ => None; py_repr := fun _ => "<object>" |}.

(** The quiet world with [get_db()] raising, and with [insert_one]
    raising. *)
Definition no_db_world : world :=
  {| clock := fun _ => PyFloat.zero; ticks := 0;
     get_db_fault := Some (mk_exn OtherException "invalid URI");
     insert_fault := None;
     service_logs := []; access_logs := [] |}.

Definition no_insert_world : world :=
  {| clock := fun _ => PyFloat.zero; ticks := 0;
     get_db_fault := None;
     insert_fault := Some (mk_exn OtherException "server selection timed out");
     service_logs := []; access_logs := [] |}.

Definition failing_posts (i : nat) : exc response :=
  match i with
  | O => Raise (mk_exn TimeoutException "timed out")
  | _ => Raise (mk_exn ConnectError "connection refused")
  end.

Definition tied_B : candidate :=
  {| c_is_me := false; c_score := PyFloat.ratio 97 100; c_threshold := PyFloat.f0_5;
     c_timing_ms := PyFloat.of_Z 12; c_service := Some "B" |}.

(** A retrieval backend and its answers. *)
Definition normativa_svc : pp1_descriptor :=
  {| p_name := Some "normativa"; p_endpoint := "http://pp1/query" |}.

Definition answer_body : dict :=
  [("text", VStr "Article 12 applies.");
   ("citations", VList [VDict citation_page_12; VStr "not a citation"])].

Definition answered : response :=
  {| resp_status_code := 200; resp_json := Ok (VDict answer_body) |}.

Definition normativa_with (registry : list pp1_descriptor) (post : requests_post)
  : normativa_env :=
  {| n_uuid4_hex := "0123456789abcdef0123456789abcdef";
     registry_pp1 := registry;
     normativa_post := post |}.

(** A driver whose server accepts everything, and one whose server
    refuses the third index. *)
Definition accepting_driver : Mongo.driver :=
  {| Mongo.MongoClient := fun _ => inr 1%nat;
     Mongo.admin_command_ping := fun _ _ => inr tt;
     Mongo.create_index := fun _ _ d => inr (Mongo.ix_name d) |}.

Definition refusing_driver : Mongo.driver :=
  {| Mongo.MongoClient := fun _ => inr 1%nat;
     Mongo.admin_command_ping := fun _ _ => inr tt;
     Mongo.create_index := fun _ _ d =>
       if String.eqb (Mongo.ix_name d) "idx_access_route_ts"
       then inl {| Mongo.is_server_selection_timeout := false;
                   Mongo.pymongo_str := "not authorized" |}
       else inr (Mongo.ix_name d) |}.

Definition connected : Mongo.module_state :=
  {| Mongo._client := Some 1%nat; Mongo.calls := 1; Mongo.constructions := 1;
     Mongo.issued := [] |}.

(* ================================================================== *)
(** * The ranking and the dispatched calls: notions and inputs *)
(* ================================================================== *)

(** No element is [<] its right neighbour. [list.sort(reverse=True)]
    reverses the list, sorts it in ascending order and reverses it
    again; on the reversed list its run detection then finds no element
    [<] its left neighbour, takes the whole list for one ascending run
    and moves nothing. *)
Definition single_run (l : list candidate) : Prop :=
  forall pre a b post, l = (pre ++ a :: b :: post)%list ->
                       PyFloat.lt (c_score a) (c_score b) = false.


(** A third backend, with no threshold of its own in the registry. *)
Definition verifier_C : descriptor :=
  {| d_name := Some "C"; d_endpoint_verify := Some "http://c/verify";
     d_active := None; d_threshold := None |}.

(** A answers [low], B answers NaN and C answers [high], all with is_me
    true; [json] reads the literal NaN of a response body as the float. *)
Definition nan_from_B (low high : PyFloat.float) : env :=
  {| uuid4_hex := "0123456789abcdef0123456789abcdef";
     registry_async := [verifier_A; verifier_B; verifier_C];
     registry_sync := [verifier_A; verifier_B; verifier_C];
     verify := fun i name_ endpoint_ =>
       Ok (replied name_ endpoint_
             (payload true (VFloat (match i with
                                     | 0%nat => low
                                     | 1%nat => S754_nan
                                     | _ => high
                                     end)))) |}.

(** The candidate built from such an answer. *)
Definition answered_with (name_ : string) (score : PyFloat.float) : candidate :=
  {| c_is_me := true; c_score := score; c_threshold := PyFloat.f0_5;
     c_timing_ms := PyFloat.of_Z 12; c_service := Some name_ |}.

(** The candidates of [nan_from_B low high] in dispatch order, and the
    result of a run that leaves them in that order and identifies the
    first. *)
Definition nan_from_B_candidates (low high : PyFloat.float) : list candidate :=
  [answered_with "A" low; answered_with "B" S754_nan; answered_with "C" high].

Definition first_identified (low high : PyFloat.float) : id_result :=
  {| r_decision := identified;
     r_identity := Some {| id_score := low; id_threshold := PyFloat.f0_9;
                           id_is_me := true |};
     r_candidates := nan_from_B_candidates low high;
     r_timing_ms := PyFloat.zero;
     r_request_id := "0123456789abcdef0123456789abcdef" |}.


(* ================================================================== *)
(** * Float comparison *)
(* ================================================================== *)

Section FloatFacts.
Import PyFloat.

Example f0_9_bits : f0_9 = S754_finite false 8106479329266893 (-53).
Proof. vm_compute. reflexivity. Qed.

Example f0_5_bits : f0_5 = S754_finite false 4503599627370496 (-53).
Proof. vm_compute. reflexivity. Qed.

Example f0_05_bits : f0_05 = S754_finite false 7205759403792794 (-57).
Proof. vm_compute. reflexivity. Qed.

Example of_Z_0 : of_Z 0 = zero.
Proof. reflexivity. Qed.

Ltac cmp_cases :=
  repeat match goal with
  | |- context [Pos.compare_cont Eq ?a ?b] =>
      change (Pos.compare_cont Eq a b) with (Pos.compare a b) in *
  | H : context [Pos.compare_cont Eq ?a ?b] |- _ =>
      change (Pos.compare_cont Eq a b) with (Pos.compare a b) in *
  | |- context [Z.compare ?a ?b] => destruct (Z.compare_spec a b)
  | |- context [Pos.compare ?a ?b] => destruct (Pos.compare_spec a b)
  | H : context [Z.compare ?a ?b] |- _ => destruct (Z.compare_spec a b)
  | H : context [Pos.compare ?a ?b] |- _ => destruct (Pos.compare_spec a b)
  end.

Ltac float_cases :=
  unfold le, lt, eqb, ge, SFleb, SFltb, SFeqb, SFcompare, is_nan;
  repeat match goal with
  | x : float |- _ => destruct x as [[|]|[|]| |[|] ? ?]
  | x : spec_float |- _ => destruct x as [[|]|[|]| |[|] ? ?]
  end;
  intros;
  try reflexivity; try discriminate; try tauto;
  cmp_cases; simpl in *; subst;
  try reflexivity; try discriminate; try tauto; try lia.

Lemma float_le_trans (x y z : float) :
  le x y = true -> le y z = true -> le x z = true.
Proof. float_cases. Qed.

Lemma float_lt_asym (x y : float) : lt x y = true -> lt y x = false.
Proof. float_cases. Qed.

Lemma float_lt_irrefl (x : float) : lt x x = false.
Proof. float_cases. Qed.

(** Without NaN, "not less than" is transitive. *)
Lemma float_not_lt_trans (x y z : float) :
  is_nan y = false -> lt x y = false -> lt y z = false -> lt x z = false.
Proof. float_cases. Qed.

Lemma float_not_lt_ge (x y : float) :
  is_nan x = false -> is_nan y = false -> lt x y = false -> le y x = true.
Proof. float_cases. Qed.

Lemma float_lt_not_eq (x y s : float) :
  lt x y = true -> eqb x s = true -> eqb y s = true -> False.
Proof. float_cases. Qed.

Lemma float_eqb_refl (x : float) : is_nan x = false -> eqb x x = true.
Proof. float_cases. Qed.

Lemma float_not_lt_eqb (x y : float) :
  is_nan x = false -> is_nan y = false ->
  lt x y = false -> lt y x = false -> eqb y x = true.
Proof. float_cases. Qed.
End FloatFacts.

(* ================================================================== *)
(** * What a returning run of identify_person computed *)
(* ================================================================== *)

Section Runs.
Context {B : Builtins}.

Lemma identify_person_returns E image_b64 timeout_s delta w r :
  fst (identify_person E image_b64 timeout_s delta w) = Ok r ->
  exists cs,
    build_candidates (_identify_person_async E) = Ok cs
    /\ r_candidates r = sort_by_score cs
    /\ (r_decision r, r_identity r) = decide (registry_sync E) delta (sort_by_score cs).
Proof.
  unfold identify_person, bind, lift, try_except, time_time, get_db, ret,
    insert_access_log.
  cbn [fst snd clock ticks get_db_fault insert_fault].
  destruct (build_candidates (_identify_person_async E)) as [cs|e]; [|discriminate].
  destruct (decide (registry_sync E) delta (sort_by_score cs)) as [d i] eqn:Hd.
  cbn [fst snd clock ticks get_db_fault insert_fault].
  destruct (get_db_fault w); [discriminate|].
  cbn [fst snd clock ticks get_db_fault insert_fault].
  destruct (insert_fault w); cbn; intros [= <-]; exists cs; cbn; auto.
Qed.

(** It returns whenever the candidates can be built and [get_db()]
    gives a handle. *)
Lemma identify_person_total E image_b64 timeout_s delta w cs :
  build_candidates (_identify_person_async E) = Ok cs ->
  get_db_fault w = None ->
  exists r, fst (identify_person E image_b64 timeout_s delta w) = Ok r.
Proof.
  intros Hb Hg.
  unfold identify_person, bind, lift, try_except, time_time, get_db, ret,
    insert_access_log.
  cbn [fst snd clock ticks get_db_fault insert_fault].
  rewrite Hb.
  destruct (decide (registry_sync E) delta (sort_by_score cs)) as [d i].
  cbn [fst snd clock ticks get_db_fault insert_fault].
  rewrite Hg. cbn [fst snd clock ticks get_db_fault insert_fault].
  destruct (insert_fault w); cbn; eauto.
Qed.

Lemma resolve_threshold_spec_tau pp2_list top :
  resolve_threshold pp2_list top = spec_tau pp2_list (c_service top).
Proof.
  unfold resolve_threshold, spec_tau.
  induction pp2_list as [|v rest IH]; cbn; [reflexivity|].
  destruct (option_string_eqb (d_name v) (c_service top)); [|exact IH].
  destruct (d_threshold v) as [t|].
  - destruct (py_float t); reflexivity.
  - reflexivity.
Qed.

Lemma decide_spec_decide pp2_list delta ranked :
  decide pp2_list delta ranked = spec_decide (spec_tau pp2_list) delta ranked.
Proof.
  destruct ranked as [|top rest]; [reflexivity|].
  unfold decide, spec_decide.
  rewrite resolve_threshold_spec_tau.
  destruct (c_is_me top) eqn:Hme; cbn [andb].
  - destruct (PyFloat.ge (c_score top) (spec_tau pp2_list (c_service top))).
    + destruct rest as [|second rest']; cbn; [reflexivity|].
      destruct (PyFloat.le _ delta); reflexivity.
    + reflexivity.
  - destruct (PyFloat.ge _ _); reflexivity.
Qed.
End Runs.

(* ================================================================== *)
(** * The decision engine *)
(* ================================================================== *)

Section Decision.
Context {B : Builtins}.

(** The decision and identity that [identify_person] returns are those
    of §4.3 applied to the list of candidates it returns, in the order
    it returns them: no candidate gives unknown and no identity; a first
    candidate with is_me true and score >= tau gives ambiguous (no
    identity) exactly when a second candidate exists with
    first.score - second.score <= delta, whatever the second's is_me,
    and otherwise identified with identity {first.score, tau, true};
    every other case gives unknown and no identity. Whether the first
    candidate is the one of highest score is the sort's business, below. *)
Lemma decision_on_returned_candidates E image_b64 timeout_s delta w r :
  fst (identify_person E image_b64 timeout_s delta w) = Ok r ->
  (r_decision r, r_identity r)
  = spec_decide (spec_tau (registry_sync E)) delta (r_candidates r).
Proof.
  intros Hrun.
  destruct (identify_person_returns _ _ _ _ _ _ Hrun) as (cs & _ & Hc & Hd).
  rewrite Hd, Hc. apply decide_spec_decide.
Qed.

Lemma sort_with_threshold g cs :
  sort_by_score (map (with_threshold g) cs) = map (with_threshold g) (sort_by_score cs).
Proof.
  induction cs as [|c cs IH]; [reflexivity|].
  cbn [map sort_by_score fold_right]. fold (sort_by_score cs).
  fold (sort_by_score (map (with_threshold g) cs)). rewrite IH.
  generalize (sort_by_score cs) as l.
  induction l as [|y l IHl]; [reflexivity|].
  cbn [map insert_by_score with_threshold c_score].
  destruct (PyFloat.lt (c_score c) (c_score y)); cbn [map]; [|reflexivity].
  f_equal. exact IHl.
Qed.

Lemma decide_with_threshold pp2_list delta g ranked :
  decide pp2_list delta (map (with_threshold g) ranked) = decide pp2_list delta ranked.
Proof.
  destruct ranked as [|top [|second rest]]; [reflexivity| |];
    unfold decide; cbn [map]; rewrite !resolve_threshold_spec_tau; reflexivity.
Qed.

(** C2. The threshold the decision compares the top score with is the
    Registry threshold of the first descriptor named like the top
    candidate's service, and 0.9 when there is none, when it has no
    threshold, or when [float()] rejects it; replacing the self-reported
    thresholds of the candidates by anything leaves decision and identity
    unchanged. *)
Theorem C2_threshold_from_registry pp2_list delta top rest :
  resolve_threshold pp2_list top = spec_tau pp2_list (c_service top)
  /\ decide pp2_list delta (top :: rest)
     = spec_decide (fun _ => spec_tau pp2_list (c_service top)) delta (top :: rest)
  /\ forall (g : candidate -> PyFloat.float) (cs : list candidate),
       decide pp2_list delta (sort_by_score (map (with_threshold g) cs))
       = decide pp2_list delta (sort_by_score cs).
Proof.
  split; [apply resolve_threshold_spec_tau|]. split.
  - rewrite decide_spec_decide. reflexivity.
  - intros g cs. rewrite sort_with_threshold. apply decide_with_threshold.
Qed.

Lemma spec_decide_monotone tau d d' ranked :
  PyFloat.le d' d = true ->
  let dec := fst (spec_decide tau d ranked) in
  let dec' := fst (spec_decide tau d' ranked) in
  (dec = unknown <-> dec' = unknown)
  /\ (dec = identified -> dec' = identified)
  /\ (dec' = ambiguous -> dec = ambiguous).
Proof.
  intros Hle. destruct ranked as [|top rest]; cbn; [tauto|].
  destruct (c_is_me top && PyFloat.ge (c_score top) (tau (c_service top)));
    cbn; [|tauto].
  destruct rest as [|second rest]; cbn; [intuition congruence|].
  destruct (PyFloat.le (PyFloat.sub (c_score top) (c_score second)) d') eqn:H';
    destruct (PyFloat.le (PyFloat.sub (c_score top) (c_score second)) d) eqn:H;
    cbn; try (intuition congruence).
  rewrite (float_le_trans _ _ _ H' Hle) in H. discriminate.
Qed.

(** C7. For the same registry and the same verifier replies, a run with a
    smaller delta ([delta' <= delta]) decides unknown exactly when the run
    with delta does, stays identified when that one is identified, and is
    ambiguous only if that one is: lowering delta moves a result from
    ambiguous to identified at most. *)
Theorem C7_monotone_in_delta E image_b64 timeout_s delta delta' w w' r r' :
  PyFloat.le delta' delta = true ->
  fst (identify_person E image_b64 timeout_s delta w) = Ok r ->
  fst (identify_person E image_b64 timeout_s delta' w') = Ok r' ->
  (r_decision r = unknown <-> r_decision r' = unknown)
  /\ (r_decision r = identified -> r_decision r' = identified)
  /\ (r_decision r' = ambiguous -> r_decision r = ambiguous).
Proof.
  intros Hle Hrun Hrun'.
  destruct (identify_person_returns _ _ _ _ _ _ Hrun) as (cs & Hb & _ & Hd).
  destruct (identify_person_returns _ _ _ _ _ _ Hrun') as (cs' & Hb' & _ & Hd').
  rewrite Hb in Hb'. injection Hb' as <-.
  rewrite decide_spec_decide in Hd, Hd'.
  pose proof (spec_decide_monotone (spec_tau (registry_sync E)) delta delta'
                (sort_by_score cs) Hle) as Hm.
  rewrite <- Hd, <- Hd' in Hm. exact Hm.
Qed.

(** C10. In a result of [identify_person] the identity is present exactly
    when the decision is identified, and then it is the top candidate's
    score, the Registry threshold resolved for the top candidate's service
    (not the threshold the backend reported), and is_me true. *)
Theorem C10_identity_iff_identified E image_b64 timeout_s delta w r :
  fst (identify_person E image_b64 timeout_s delta w) = Ok r ->
  (r_identity r <> None <-> r_decision r = identified)
  /\ match r_identity r with
     | None => True
     | Some i =>
         exists top rest,
           r_candidates r = top :: rest
           /\ i = {| id_score := c_score top;
                     id_threshold := spec_tau (registry_sync E) (c_service top);
                     id_is_me := true |}
     end.
Proof.
  intros Hrun.
  destruct (identify_person_returns _ _ _ _ _ _ Hrun) as (cs & _ & Hc & Hd).
  rewrite decide_spec_decide, <- Hc in Hd.
  destruct (r_candidates r) as [|top rest]; cbn in Hd.
  - injection Hd as -> ->. split; [split; [congruence|discriminate]|exact I].
  - destruct (c_is_me top && PyFloat.ge (c_score top)
                (spec_tau (registry_sync E) (c_service top))).
    + destruct rest as [|second rest'].
      * injection Hd as -> ->. split; [split; [reflexivity|discriminate]|].
        exists top, []. split; reflexivity.
      * destruct (PyFloat.le (PyFloat.sub (c_score top) (c_score second)) delta).
        -- injection Hd as -> ->. split; [split; [congruence|discriminate]|exact I].
        -- injection Hd as -> ->. split; [split; [reflexivity|discriminate]|].
           exists top, (second :: rest'). split; reflexivity.
    + injection Hd as -> ->. split; [split; [congruence|discriminate]|exact I].
Qed.

End Decision.

(* ================================================================== *)
(** * Ranking *)
(* ================================================================== *)

Section Ranking.

Lemma insert_by_score_perm x l : Permutation (insert_by_score x l) (x :: l).
Proof.
  induction l as [|y l IH]; cbn; [reflexivity|].
  destruct (PyFloat.lt (c_score x) (c_score y)); [|reflexivity].
  rewrite IH. apply perm_swap.
Qed.

Lemma sort_by_score_perm l : Permutation (sort_by_score l) l.
Proof.
  induction l as [|x l IH]; cbn; [reflexivity|].
  fold (sort_by_score l). rewrite insert_by_score_perm. now constructor.
Qed.

Lemma insert_by_score_sorted x l :
  no_nan_score l -> ranked_descending l -> ranked_descending (insert_by_score x l).
Proof.
  unfold ranked_descending, no_nan_score.
  induction l as [|y l IH]; intros Hnan Hs; cbn.
  - repeat constructor.
  - inversion Hnan as [|? ? Hy Hl]; subst.
    inversion Hs as [|? ? Hs' Hall]; subst.
    destruct (PyFloat.lt (c_score x) (c_score y)) eqn:Hlt.
    + constructor; [now apply IH|].
      apply (Permutation_Forall (Permutation_sym (insert_by_score_perm x l))).
      constructor; [|exact Hall].
      unfold not_below. now apply float_lt_asym.
    + constructor; [exact Hs|].
      constructor; [exact Hlt|].
      rewrite Forall_forall in Hall |- *. intros z Hz.
      unfold not_below in *. eapply float_not_lt_trans; eauto.
Qed.

Lemma insert_by_score_filter (f : PyFloat.float -> bool) x l :
  (forall y, PyFloat.lt (c_score x) (c_score y) = true ->
             f (c_score x) = true -> f (c_score y) = true -> False) ->
  filter (fun c => f (c_score c)) (insert_by_score x l)
  = filter (fun c => f (c_score c)) (x :: l).
Proof.
  intros Hf. induction l as [|y l IH]; [reflexivity|].
  cbn [insert_by_score].
  destruct (PyFloat.lt (c_score x) (c_score y)) eqn:Hlt; [|reflexivity].
  cbn [filter] in *. rewrite IH.
  destruct (f (c_score x)) eqn:Hx, (f (c_score y)) eqn:Hy; try reflexivity.
  exfalso. eapply Hf; eauto.
Qed.

Lemma sort_by_score_stable l : same_order_among_equals l (sort_by_score l).
Proof.
  intros s. induction l as [|x l IH]; [reflexivity|].
  cbn [sort_by_score fold_right]. fold (sort_by_score l).
  rewrite (insert_by_score_filter (fun k => PyFloat.eqb k s)).
  - cbn [filter]. rewrite IH. reflexivity.
  - intros y. apply float_lt_not_eq.
Qed.

(** Where no adjacent pair is in ascending order the list is returned as
    it is: [list.sort] finds a single run and moves nothing. *)
Lemma sort_by_score_single_run l :
  (forall pre a b post, l = (pre ++ a :: b :: post)%list ->
                        PyFloat.lt (c_score a) (c_score b) = false) ->
  sort_by_score l = l.
Proof.
  induction l as [|x l IH]; intros Hrun; [reflexivity|].
  cbn [sort_by_score fold_right]. fold (sort_by_score l).
  rewrite IH.
  - destruct l as [|y l]; [reflexivity|]. cbn.
    rewrite (Hrun [] x y l eq_refl). reflexivity.
  - intros pre a b post ->. apply (Hrun (x :: pre) a b post). reflexivity.
Qed.

(** Without NaN there is one ranking that is descending and keeps equal
    scores in order; any stable sort returns it. *)
Lemma ranking_unique l1 l2 :
  no_nan_score l1 -> Permutation l1 l2 ->
  ranked_descending l1 -> ranked_descending l2 ->
  same_order_among_equals l1 l2 -> l1 = l2.
Proof.
  unfold ranked_descending, no_nan_score, same_order_among_equals.
  revert l2. induction l1 as [|a l1 IH]; intros l2 Hnan Hp Hs1 Hs2 Hst.
  - apply Permutation_nil in Hp. now subst.
  - destruct l2 as [|b l2].
    { apply Permutation_sym, Permutation_nil in Hp. discriminate. }
    inversion Hnan as [|? ? Ha Hnan1]; subst.
    inversion Hs1 as [|? ? Hs1' Hall1]; subst.
    inversion Hs2 as [|? ? Hs2' Hall2]; subst.
    assert (Hb : PyFloat.is_nan (c_score b) = false).
    { assert (In b (a :: l1)) as Hin
        by (eapply Permutation_in; [apply Permutation_sym, Hp|now left]).
      rewrite Forall_forall in Hnan. now apply Hnan. }
    assert (Hab : PyFloat.lt (c_score a) (c_score b) = false).
    { assert (In b (a :: l1)) as [->|Hin]
        by (eapply Permutation_in; [apply Permutation_sym, Hp|now left]).
      - apply float_lt_irrefl.
      - rewrite Forall_forall in Hall1. now apply Hall1. }
    assert (Hba : PyFloat.lt (c_score b) (c_score a) = false).
    { assert (In a (b :: l2)) as [->|Hin]
        by (eapply Permutation_in; [apply Hp|now left]).
      - apply float_lt_irrefl.
      - rewrite Forall_forall in Hall2. now apply Hall2. }
    assert (Heq : a = b).
    { pose proof (Hst (c_score a)) as Hf. cbn [filter] in Hf.
      rewrite (float_eqb_refl _ Ha) in Hf.
      rewrite (float_not_lt_eqb _ _ Ha Hb Hab Hba) in Hf.
      now injection Hf. }
    subst b. f_equal. apply IH; auto.
    + eapply Permutation_cons_inv; eauto.
    + intros s. specialize (Hst s). cbn [filter] in Hst.
      destruct (PyFloat.eqb (c_score a) s); [now injection Hst|exact Hst].
Qed.

(** When no candidate's score is NaN, the ranked list is a
    rearrangement of the candidates in which no candidate comes after one
    of strictly smaller score, and candidates of equal score stand in
    their original (dispatch) order. *)
Lemma ranking_descending_and_stable (l : list candidate) :
  no_nan_score l ->
  Permutation (sort_by_score l) l
  /\ ranked_descending (sort_by_score l)
  /\ same_order_among_equals l (sort_by_score l).
Proof.
  intros Hnan. split; [apply sort_by_score_perm|]. split; [|apply sort_by_score_stable].
  induction l as [|x l IH]; [constructor|].
  inversion Hnan as [|? ? Hx Hl]; subst.
  cbn [sort_by_score fold_right]. fold (sort_by_score l).
  apply insert_by_score_sorted; [|now apply IH].
  unfold no_nan_score.
  apply (Permutation_Forall (Permutation_sym (sort_by_score_perm l))). exact Hl.
Qed.

End Ranking.

(* ================================================================== *)
(** * Building candidates *)
(* ================================================================== *)

Section Candidates.
Context {B : Builtins}.

Lemma py_float_classes v e :
  py_float v = Raise e ->
  exn_cls e = ValueError \/ exn_cls e = TypeError \/ exn_cls e = OverflowError.
Proof.
  destruct v; cbn; try (intros [= <-]; cbn; tauto); try discriminate.
  - destruct (PyFloat.of_Z z); try discriminate. intros [= <-]; cbn; tauto.
  - destruct (float_of_str s); try discriminate. intros [= <-]; cbn; tauto.
Qed.

(** C5, amended. An outcome whose payload is an object with a "score" key
    yields a candidate for the outcome's service, provided [float()]
    converts or rejects (ValueError, TypeError) the score, threshold and
    timing_ms values. If all three convert, is_me is the truth value of
    the payload's is_me (false when absent) and the three numbers are the
    converted values (threshold 0.5 and timing_ms 0.0 when absent). If
    one of them is rejected, all four fields take the defaults together:
    is_me false, score 0.0, threshold 0.5, timing_ms 0.0. *)
Theorem C5_candidate_fields (r : outcome) (res : dict) :
  result r = VDict res ->
  contains "score" res = true ->
  converts_or_rejects (get_or res "score" (VInt 0)) ->
  converts_or_rejects (get_or res "threshold" (VFloat PyFloat.f0_5)) ->
  converts_or_rejects (get_or res "timing_ms" (VInt 0)) ->
  candidate_of r
  = Ok (Some
      match py_float (get_or res "score" (VInt 0)),
            py_float (get_or res "threshold" (VFloat PyFloat.f0_5)),
            py_float (get_or res "timing_ms" (VInt 0)) with
      | Ok score, Ok threshold, Ok timing =>
          {| c_is_me := truthy (get_or res "is_me" (VBool false));
             c_score := score; c_threshold := threshold; c_timing_ms := timing;
             c_service := service_name r |}
      | _, _, _ =>
          {| c_is_me := false; c_score := PyFloat.zero;
             c_threshold := PyFloat.f0_5; c_timing_ms := PyFloat.zero;
             c_service := service_name r |}
      end).
Proof.
  unfold candidate_of, coerce_fields, converts_or_rejects.
  intros -> -> Hs Ht Hm.
  destruct (py_float (get_or res "score" (VInt 0))) as [s|es]; cbn [exc_bind].
  2:{ rewrite Hs. reflexivity. }
  destruct (py_float (get_or res "threshold" (VFloat PyFloat.f0_5))) as [t|et];
    cbn [exc_bind].
  2:{ rewrite Ht. reflexivity. }
  destruct (py_float (get_or res "timing_ms" (VInt 0))) as [m|em]; cbn [exc_bind].
  2:{ rewrite Hm. reflexivity. }
  reflexivity.
Qed.

(** The candidates stand in the order of the outcomes they come from. *)
Lemma build_candidates_order (results : list outcome) (cs : list candidate) :
  build_candidates results = Ok cs ->
  cs = flat_map (fun r => match candidate_of r with
                          | Ok (Some c) => [c]
                          | _ => []
                          end) results.
Proof.
  revert cs. induction results as [|r rest IH]; intros cs; cbn.
  - now intros [= <-].
  - destruct (candidate_of r) as [oc|e]; cbn; [|discriminate].
    destruct (build_candidates rest) as [cs'|e]; cbn; [|discriminate].
    intros [= <-]. rewrite (IH cs' eq_refl). now destruct oc.
Qed.

(** An integer beyond the float range in one of the three fields ends
    [identify_person] with that [OverflowError]. *)
Lemma candidate_of_overflow (r : outcome) (res : dict) (z : Z) :
  result r = VDict res ->
  lookup "score" res = Some (VInt z) ->
  (exists s, PyFloat.of_Z z = S754_infinity s) ->
  exists e, candidate_of r = Raise e /\ exn_cls e = OverflowError.
Proof.
  intros Hr Hl [s Hz]. unfold candidate_of, coerce_fields, contains, get_or.
  rewrite Hr, Hl. cbn [py_float]. rewrite Hz. cbn. eauto.
Qed.

End Candidates.

(* ================================================================== *)
(** * The verifier call adapter *)
(* ================================================================== *)

Section Adapter.

Lemma _log_service_call_returns request_id name_ endpoint_ result_ w :
  fst (_log_service_call request_id name_ endpoint_ result_ w) = Ok tt.
Proof.
  unfold _log_service_call. destruct request_id as [rid|]; [|reflexivity].
  unfold try_except, bind, get_db, time_time, insert_service_log, any_exception, ret.
  destruct (get_db_fault w); cbn; [reflexivity|].
  destruct (insert_fault w); reflexivity.
Qed.

Lemma call_verifier_except_returns start_time request_id name_ url result_ e w :
  exists o,
    fst (call_verifier_except start_time request_id name_ url result_ e w) = Ok o
    /\ service_name o = service_name result_ /\ endpoint o = endpoint result_
    /\ status_code o = status_code result_ /\ result o = result result_
    /\ timeout o = (is_class TimeoutException e || timeout result_)
    /\ error o = Some (error_text e).
Proof.
  unfold call_verifier_except, bind, time_time, ret, error_text.
  cbn [fst snd].
  match goal with
  | |- context [_log_service_call ?a ?b ?c ?d ?w'] =>
      pose proof (_log_service_call_returns a b c d w') as Hlog;
      destruct (_log_service_call a b c d w') as [[[]|e'] w'']; cbn in Hlog;
      [|discriminate]
  end.
  cbn [fst]. eexists. split; [reflexivity|].
  destruct (is_class TimeoutException e); [cbn; auto 10|].
  destruct (is_class ConnectError e); cbn; auto 10.
Qed.

Lemma call_verifier_returns post name_ endpoint_ image_b64 timeout_s request_id w :
  exists o,
    fst (call_verifier post name_ endpoint_ image_b64 timeout_s request_id w) = Ok o
    /\ service_name o = name_ /\ endpoint o = endpoint_
    /\ match post with
       | Ok response_ =>
           status_code o = Some (resp_status_code response_)
           /\ result o = match resp_json response_ with
                         | Ok d => d
                         | Raise _ => VNone
                         end
           /\ timeout o = false /\ error o = None
       | Raise e =>
           status_code o = None /\ result o = VNone
           /\ timeout o = is_class TimeoutException e
           /\ error o = Some (error_text e)
       end.
Proof.
  unfold call_verifier, bind, attempt, lift, time_time, ret.
  cbn [fst snd clock ticks].
  destruct post as [response_|e]; cbn [fst snd].
  - match goal with
    | |- context [_log_service_call ?a ?b ?c ?d ?w'] =>
        pose proof (_log_service_call_returns a b c d w') as Hlog;
        destruct (_log_service_call a b c d w') as [[[]|e'] w'']; cbn in Hlog;
        [|discriminate]
    end.
    cbn. eexists. split; [reflexivity|]. cbn. auto 10.
  - match goal with
    | |- context [call_verifier_except ?s ?rid ?n ?u ?r ?x ?w'] =>
        destruct (call_verifier_except_returns s rid n u r x w')
          as (o & Ho & Hn & Hep & Hst & Hres & Hto & Herr)
    end.
    exists o. rewrite Ho, Hn, Hep, Hst, Hres, Hto, Herr. cbn.
    rewrite orb_false_r. auto 10.
Qed.

(** With the adapter as the task, no entry of the batch is an exception. *)
Lemma gather_adapter_task_returns posts image_b64 timeout_s req_id w i tasks :
  Forall (fun r => exists o, r = Ok o)
         (gather (adapter_task posts image_b64 timeout_s req_id w) i tasks).
Proof.
  revert i. induction tasks as [|[name_ endpoint_] rest IH]; intros i; cbn.
  - constructor.
  - constructor; [|apply IH]. unfold adapter_task.
    destruct (call_verifier_returns (posts i) name_ endpoint_ image_b64 timeout_s
                (Some req_id) w) as (o & Ho & _).
    eauto.
Qed.

(** C8. Whatever the transaction does (answer, time out, fail to
    connect, fail otherwise) and whether or not the audit write succeeds,
    [call_verifier] returns an outcome and raises nothing. After a timeout
    the outcome has timeout true, error "timeout" and a null result; after
    a connection failure its error is "connection_error: " followed by the
    failure's text. *)
Theorem C8_adapter_always_returns post name_ endpoint_ image_b64 timeout_s request_id w :
  exists o,
    fst (call_verifier post name_ endpoint_ image_b64 timeout_s request_id w) = Ok o
    /\ match post with
       | Ok _ => error o = None /\ timeout o = false
       | Raise e =>
           if is_class TimeoutException e
           then timeout o = true /\ error o = Some "timeout" /\ result o = VNone
           else if is_class ConnectError e
           then error o = Some ("connection_error: " ++ exn_str e)
                /\ (exists s, error o = Some s
                              /\ String.prefix "connection_error: " s = true)
           else error o = Some (exn_str e)
       end.
Proof.
  destruct (call_verifier_returns post name_ endpoint_ image_b64 timeout_s request_id w)
    as (o & Ho & _ & _ & Hpost).
  exists o. split; [exact Ho|].
  destruct post as [response_|e].
  - tauto.
  - destruct Hpost as (_ & Hres & Hto & Herr). unfold error_text in Herr.
    destruct (is_class TimeoutException e); [auto|].
    destruct (is_class ConnectError e); [|exact Herr].
    split; [exact Herr|]. eexists. split; [exact Herr|].
    generalize (exn_str e) as s. intros s. cbn.
    destruct s; reflexivity.
Qed.

(** C4, amended. Every outcome [call_verifier] returns has at most one of
    a non-null result and a non-null error, and timeout is set only with
    error "timeout" and a null result. Of the three signals (result
    non-null, timeout, error non-null) exactly one holds after an answer
    whose body parses to a non-null value, after a connection failure and
    after any other failure; two hold after a timeout; none holds after an
    answer whose body does not parse or parses to null. *)
Theorem C4_outcome_signals post name_ endpoint_ image_b64 timeout_s request_id w :
  exists o,
    fst (call_verifier post name_ endpoint_ image_b64 timeout_s request_id w) = Ok o
    /\ signals o
       = match post with
         | Ok response_ =>
             match resp_json response_ with
             | Ok VNone | Raise _ => 0%nat
             | Ok _ => 1%nat
             end
         | Raise e => if is_class TimeoutException e then 2%nat else 1%nat
         end
    /\ (result o = VNone \/ error o = None)
    /\ (if timeout o then error o = Some "timeout" /\ result o = VNone else True).
Proof.
  destruct (call_verifier_returns post name_ endpoint_ image_b64 timeout_s request_id w)
    as (o & Ho & _ & _ & Hpost).
  exists o. split; [exact Ho|]. unfold signals.
  destruct post as [response_|e].
  - destruct Hpost as (_ & -> & -> & ->).
    destruct (resp_json response_) as [[]|]; cbn; auto.
  - destruct Hpost as (_ & -> & -> & ->). unfold error_text.
    destruct (is_class TimeoutException e); cbn; auto.
Qed.

End Adapter.

(* ================================================================== *)
(** * The fan-out *)
(* ================================================================== *)

Section FanOut.

Lemma process_results_length pp2_list i results :
  List.length (process_results pp2_list i results) = List.length results.
Proof.
  revert i. induction results as [|[r|e] rest IH]; intros i; cbn; auto.
Qed.

Lemma gather_length run i tasks :
  List.length (gather run i tasks) = List.length tasks.
Proof.
  revert i. induction tasks as [|[n u] rest IH]; intros i; cbn; auto.
Qed.

(** One outcome per dispatched task, whatever the tasks did. *)
Lemma _identify_person_async_length E :
  List.length (_identify_person_async E) = List.length (build_tasks (registry_async E)).
Proof.
  unfold _identify_person_async.
  destruct (build_tasks (registry_async E)) as [|t ts] eqn:Ht; [reflexivity|].
  rewrite process_results_length, gather_length. reflexivity.
Qed.

(** An exception at position [k] becomes the record of [exception_outcome],
    whose error is the exception's text. *)
Lemma process_results_exception pp2_list i results k e :
  nth_error results k = Some (Raise e) ->
  nth_error (process_results pp2_list i results) k
  = Some (exception_outcome pp2_list (i + k) e)
  /\ error (exception_outcome pp2_list (i + k) e) = Some (exn_str e).
Proof.
  revert i k. induction results as [|x rest IH]; intros i [|k] H; try discriminate.
  - cbn in H. injection H as ->. cbn. rewrite Nat.add_0_r. auto.
  - cbn in H. destruct (IH (S i) k H) as [IH1 IH2].
    rewrite Nat.add_succ_r. cbn in IH1, IH2.
    destruct x; cbn; auto.
Qed.

Lemma build_tasks_when_endpoints_present pp2_list :
  Forall (fun v => is_active v = true -> has_endpoint v = true) pp2_list ->
  build_tasks pp2_list
  = map (fun v => (d_name v, match d_endpoint_verify v with
                             | Some u => u
                             | None => ""
                             end))
        (filter is_active pp2_list).
Proof.
  induction 1 as [|v rest Hv _ IH]; [reflexivity|].
  cbn [build_tasks filter]. unfold has_endpoint in Hv.
  destruct (is_active v); cbn [negb map]; [|exact IH].
  specialize (Hv eq_refl).
  destruct (d_endpoint_verify v) as [[|a u]|]; try discriminate.
  rewrite <- IH. reflexivity.
Qed.

(** Where every active descriptor has an endpoint, position [i] of the
    active descriptors is the descriptor dispatched at position [i], and
    the record for an exception there carries its name and endpoint. *)
Lemma exception_outcome_attribution pp2_list i e name_ endpoint_ :
  Forall (fun v => is_active v = true -> has_endpoint v = true) pp2_list ->
  nth_error (build_tasks pp2_list) i = Some (name_, endpoint_) ->
  service_name (exception_outcome pp2_list i e)
  = Some (match name_ with Some n => n | None => "unknown" end)
  /\ endpoint (exception_outcome pp2_list i e) = endpoint_.
Proof.
  intros Hall Hi. rewrite (build_tasks_when_endpoints_present _ Hall) in Hi.
  rewrite nth_error_map in Hi. unfold exception_outcome. cbn.
  destruct (nth_error (filter is_active pp2_list) i) as [v|]; [|discriminate].
  cbn in Hi. injection Hi as <- <-.
  destruct (d_name v); auto.
Qed.

(** The branch of fuse.py 50-64 on its own, for a task other than
    [call_verifier] (which raises nothing, see [call_verifier_returns]):
    the registry lists A (active, no endpoint) before B, only B is
    dispatched, at position 0, and the task raises "boom". The record's
    error is "boom" and no exception leaves [_identify_person_async];
    the position is looked up among the active descriptors, so the
    record names A with an empty endpoint. *)
Remark exception_branch_looks_up_active_descriptors :
  build_tasks (registry_async faulting_fanout) = [(Some "B", "http://b/verify")]
  /\ _identify_person_async faulting_fanout
     = [{| service_name := Some "A"; endpoint := "";
           latency_ms := PyFloat.zero; status_code := None;
           result := VNone; timeout := false; error := Some "boom" |}].
Proof. split; reflexivity. Qed.

End FanOut.

(* ================================================================== *)
(** * Citations *)
(* ================================================================== *)

Section Citations.
Context {B : Builtins}.

(** C9, amended. A citation object one of whose doc aliases holds a true
    value (non-empty, non-zero) is kept. If a page alias holds a true
    value, the result has page = str(page) and no section, whatever the
    section aliases hold. If no page alias does, the result has no page,
    and has section = str(section) exactly when a section alias holds a
    true value; with neither, both fields are omitted. *)
Theorem C9_page_before_section (c : dict) :
  truthy (doc_of c) = true ->
  exists n,
    normalize_citation (VDict c) = Some n
    /\ getitem "doc" n = Some (py_str (doc_of c))
    /\ getitem "page" n
       = (if truthy (page_of c) then Some (py_str (page_of c)) else None)
    /\ getitem "section" n
       = (if truthy (page_of c) then None
          else if truthy (section_of c) then Some (py_str (section_of c))
          else None).
Proof.
  intros Hdoc. unfold normalize_citation.
  change (py_or (get c "doc")
            (py_or (get c "document") (py_or (get c "title") (get c "name"))))
    with (doc_of c).
  change (py_or (get c "page") (get c "p")) with (page_of c).
  change (py_or (get c "section") (py_or (get c "sec") (get c "section_number")))
    with (section_of c).
  rewrite Hdoc. cbn [negb].
  eexists. split; [reflexivity|].
  destruct (truthy (page_of c)), (truthy (section_of c)),
    (truthy (py_or (get c "url") (py_or (get c "link") (get c "href"))));
    cbn; auto.
Qed.

End Citations.

(* ================================================================== *)
(** * Concrete runs *)
(* ================================================================== *)

(** The scenarios of §8. *)
Example scenario_single_identified :
  exists r,
    fst (identify_person (B:=sample_builtins) (one_verifier true (PyFloat.ratio 97 100))
           "img" 15 default_delta quiet_world) = Ok r
    /\ r_decision r = identified
    /\ r_identity r = Some {| id_score := PyFloat.ratio 97 100;
                              id_threshold := PyFloat.f0_9;
                              id_is_me := true |}.
Proof. eexists. split; [vm_compute; reflexivity|]. split; vm_compute; reflexivity. Qed.

Example scenario_explicit_negative :
  exists r,
    fst (identify_person (B:=sample_builtins) (one_verifier false (PyFloat.ratio 95 100))
           "img" 15 default_delta quiet_world) = Ok r
    /\ r_decision r = unknown /\ r_identity r = None.
Proof. eexists. split; [vm_compute; reflexivity|]. split; reflexivity. Qed.

Example scenario_all_failing :
  List.length (_identify_person_async all_failing) = 2%nat
  /\ map error (_identify_person_async all_failing)
     = [Some "timeout"; Some "connection_error: connection refused"]
  /\ exists r,
       fst (identify_person (B:=sample_builtins) all_failing "img" 15 default_delta
              quiet_world) = Ok r
       /\ r_candidates r = [] /\ r_decision r = unknown /\ r_identity r = None.
Proof.
  split; [vm_compute; reflexivity|]. split; [vm_compute; reflexivity|].
  eexists. split; [vm_compute; reflexivity|]. repeat split; reflexivity.
Qed.

Example scenario_normalizer :
  normalize_citation (B:=sample_builtins)
    (VDict [("document", VStr "Civil Code"); ("sec", VStr "12"); ("link", VStr "http://x")])
  = Some [("doc", "Civil Code"); ("section", "12"); ("url", "http://x")].
Proof. reflexivity. Qed.

Example py_str_of_ints :
  py_str (B:=sample_builtins) (VInt 0) = "0"
  /\ py_str (B:=sample_builtins) (VInt 12) = "12"
  /\ py_str (B:=sample_builtins) (VInt (-7)) = "-7".
Proof. repeat split; reflexivity. Qed.

Example py_float_of_huge_int :
  exists e, py_float (B:=sample_builtins) (VInt (10 ^ 400)) = Raise e
            /\ exn_cls e = OverflowError.
Proof. eexists. split; [vm_compute; reflexivity|reflexivity]. Qed.

Example scenario_two_close_is_ambiguous :
  fst (identify_person (B:=sample_builtins) two_close_verifiers "img" 15
         default_delta quiet_world) = Ok two_close_result
  /\ (r_decision two_close_result, r_identity two_close_result)
     = spec_decide
         (spec_tau (B:=sample_builtins) (registry_sync two_close_verifiers))
         default_delta
         (r_candidates two_close_result).
Proof.
  assert (H : fst (identify_person (B:=sample_builtins) two_close_verifiers "img" 15
                     default_delta quiet_world) = Ok two_close_result)
    by (vm_compute; reflexivity).
  split; [exact H|].
  exact (decision_on_returned_candidates _ _ _ _ _ _ H).
Qed.

Lemma C7_witness :
  PyFloat.le PyFloat.zero default_delta = true
  /\ fst (identify_person (B:=sample_builtins) two_close_verifiers "img" 15
            default_delta quiet_world) = Ok two_close_result
  /\ fst (identify_person (B:=sample_builtins) two_close_verifiers "img" 15
            PyFloat.zero quiet_world) = Ok two_close_result_delta_0
  /\ ((r_decision two_close_result = unknown
       <-> r_decision two_close_result_delta_0 = unknown)
      /\ (r_decision two_close_result = identified
          -> r_decision two_close_result_delta_0 = identified)
      /\ (r_decision two_close_result_delta_0 = ambiguous
          -> r_decision two_close_result = ambiguous)).
Proof.
  assert (Hle : PyFloat.le PyFloat.zero default_delta = true)
    by (vm_compute; reflexivity).
  assert (H : fst (identify_person (B:=sample_builtins) two_close_verifiers "img" 15
                     default_delta quiet_world) = Ok two_close_result)
    by (vm_compute; reflexivity).
  assert (H' : fst (identify_person (B:=sample_builtins) two_close_verifiers "img" 15
                      PyFloat.zero quiet_world) = Ok two_close_result_delta_0)
    by (vm_compute; reflexivity).
  repeat split; try assumption;
    apply (C7_monotone_in_delta _ _ _ _ _ _ _ _ _ Hle H H').
Defined.

Lemma C10_witness :
  fst (identify_person (B:=sample_builtins) two_close_verifiers "img" 15
         PyFloat.zero quiet_world) = Ok two_close_result_delta_0
  /\ (r_identity two_close_result_delta_0 <> None
      <-> r_decision two_close_result_delta_0 = identified)
  /\ exists top rest,
       r_candidates two_close_result_delta_0 = top :: rest
       /\ r_identity two_close_result_delta_0
          = Some {| id_score := c_score top;
                    id_threshold := spec_tau (B:=sample_builtins)
                                      (registry_sync two_close_verifiers) (c_service top);
                    id_is_me := true |}.
Proof.
  assert (H : fst (identify_person (B:=sample_builtins) two_close_verifiers "img" 15
                     PyFloat.zero quiet_world) = Ok two_close_result_delta_0)
    by (vm_compute; reflexivity).
  destruct (C10_identity_iff_identified _ _ _ _ _ _ H) as [Hiff Hid].
  split; [exact H|]. split; [exact Hiff|].
  cbn in Hid. destruct Hid as (top & rest & Hc & Hi).
  exists top, rest. split; [exact Hc|]. cbn. now rewrite Hi.
Defined.

Lemma C5_witness :
  result well_formed_outcome = VDict well_formed_fields
  /\ contains "score" well_formed_fields = true
  /\ candidate_of (B:=sample_builtins) well_formed_outcome = Ok (Some ranked_A).
Proof.
  split; [reflexivity|]. split; [reflexivity|].
  refine (eq_trans
            (C5_candidate_fields (B:=sample_builtins) well_formed_outcome
               well_formed_fields eq_refl eq_refl _ _ _) _).
  - exact I.
  - exact I.
  - vm_compute. exact I.
  - vm_compute. reflexivity.
Defined.

Example ranking_of_two :
  no_nan_score [ranked_B; ranked_A]
  /\ sort_by_score [ranked_B; ranked_A] = [ranked_A; ranked_B]
  /\ Permutation (sort_by_score [ranked_B; ranked_A]) [ranked_B; ranked_A]
  /\ ranked_descending (sort_by_score [ranked_B; ranked_A])
  /\ same_order_among_equals [ranked_B; ranked_A] (sort_by_score [ranked_B; ranked_A]).
Proof.
  assert (H : no_nan_score [ranked_B; ranked_A]) by (repeat constructor).
  split; [exact H|]. split; [vm_compute; reflexivity|].
  exact (ranking_descending_and_stable _ H).
Qed.

Lemma C9_witness :
  truthy (doc_of citation_page_12) = true
  /\ exists n,
       normalize_citation (B:=sample_builtins) (VDict citation_page_12) = Some n
       /\ getitem "page" n = Some "12"
       /\ getitem "section" n = None.
Proof.
  split; [reflexivity|].
  destruct (C9_page_before_section (B:=sample_builtins) citation_page_12 eq_refl)
    as (n & Hn & _ & Hp & Hs).
  exists n. split; [exact Hn|]. split; [exact Hp|exact Hs].
Defined.

(** C4 as stated fails on a timeout: the outcome has timeout true and
    error "timeout", two signals instead of one. *)
Lemma C4_counterexample :
  ~ (forall post name_ endpoint_ image_b64 timeout_s request_id w o,
       fst (call_verifier post name_ endpoint_ image_b64 timeout_s request_id w) = Ok o ->
       signals o = 1%nat).
Proof.
  intros H.
  specialize (H (Raise (mk_exn TimeoutException "timed out")) (Some "A")
                "http://a/verify" "img" 15 (Some "rid") quiet_world _ eq_refl).
  vm_compute in H. discriminate H.
Qed.

(** C5 as stated fails, whatever the builtins do, on a payload whose
    score 0.97 is valid and whose timing_ms is null: the candidate gets
    score 0.0 and is_me false, not 0.97 and true. *)
Lemma C5_counterexample :
  ~ (exists B : Builtins,
       forall (r : outcome) (res : dict),
         result r = VDict res ->
         contains "score" res = true ->
         candidate_of r = Ok (Some (spec_coerce_each res (service_name r)))).
Proof.
  intros [B H].
  specialize (H null_timing_outcome null_timing_fields eq_refl eq_refl).
  vm_compute in H. discriminate H.
Qed.

(** C9 as stated fails, whatever the builtins do, on
    {"doc": "Civil Code", "page": 0, "section": "3"}: both fields are
    present, and the result has section "3" and no page. *)
Lemma C9_counterexample :
  ~ (exists B : Builtins,
       forall c : dict,
         truthy (doc_of c) = true ->
         (has_key page_keys c = true -> has_key section_keys c = true ->
          exists n, normalize_citation (VDict c) = Some n
                    /\ getitem "page" n <> None /\ getitem "section" n = None)
         /\ (has_key page_keys c = false -> has_key section_keys c = false ->
             exists n, normalize_citation (VDict c) = Some n
                       /\ getitem "page" n = None /\ getitem "section" n = None)).
Proof.
  intros [B H].
  destruct (H citation_page_0 eq_refl) as [Hboth _].
  destruct (Hboth eq_refl eq_refl) as (n & Hn & Hp & _).
  vm_compute in Hn. injection Hn as <-.
  apply Hp. reflexivity.
Qed.

(* ================================================================== *)
(** * The fan-out, continued *)
(* ================================================================== *)

Section FanOutMore.

(** X1. A task is created for exactly the descriptors that are active
    and have a non-empty endpoint, in registry order, with the
    descriptor's name and endpoint. *)
Theorem X1_tasks_are_the_dispatchable_descriptors (pp2_list : list descriptor) :
  build_tasks pp2_list = map task_of (filter dispatchable pp2_list).
Proof.
  induction pp2_list as [|v rest IH]; [reflexivity|].
  cbn [build_tasks filter]. unfold dispatchable at 1, has_endpoint.
  destruct (is_active v); cbn [negb andb]; [|exact IH].
  destruct (d_endpoint_verify v) as [[|a u]|] eqn:Hu; cbn [map]; rewrite IH;
    try reflexivity.
  unfold task_of. rewrite Hu. reflexivity.
Qed.

Lemma process_gather_nth pp2_list run j tasks i name_ endpoint_ :
  nth_error tasks i = Some (name_, endpoint_) ->
  nth_error (process_results pp2_list j (gather run j tasks)) i
  = Some (match run (j + i)%nat name_ endpoint_ with
          | Ok o => o
          | Raise e => exception_outcome pp2_list (j + i) e
          end).
Proof.
  revert j i. induction tasks as [|[n u] rest IH]; intros j [|i] H; try discriminate.
  - cbn in H. injection H as -> ->. cbn. rewrite Nat.add_0_r.
    destruct (run j name_ endpoint_); reflexivity.
  - cbn in H. cbn [gather]. rewrite Nat.add_succ_r.
    specialize (IH (S j) i H). cbn [Nat.add] in IH.
    destruct (run j n u); cbn [process_results nth_error]; exact IH.
Qed.

Lemma _identify_person_async_nth (E : env) (i : nat)
    (name_ : option string) (endpoint_ : string) :
  nth_error (build_tasks (registry_async E)) i = Some (name_, endpoint_) ->
  nth_error (_identify_person_async E) i
  = Some (match verify E i name_ endpoint_ with
          | Ok o => o
          | Raise e => exception_outcome (registry_async E) i e
          end).
Proof.
  intros Hi. unfold _identify_person_async.
  destruct (build_tasks (registry_async E)) as [|t ts] eqn:Ht.
  - destruct i; discriminate.
  - apply (process_gather_nth (registry_async E) (verify E) 0 (t :: ts) i). exact Hi.
Qed.

(** X2. The batch has one outcome per dispatched task, in dispatch
    order: at the position of a task stands the outcome its call
    returned, or, when the call raised, the record written for the
    exception. No task is skipped whatever the others did. *)
Theorem X2_one_outcome_per_task_in_order (E : env) (i : nat)
    (name_ : option string) (endpoint_ : string) :
  nth_error (build_tasks (registry_async E)) i = Some (name_, endpoint_) ->
  List.length (_identify_person_async E) = List.length (build_tasks (registry_async E))
  /\ nth_error (_identify_person_async E) i
     = Some (match verify E i name_ endpoint_ with
             | Ok o => o
             | Raise e => exception_outcome (registry_async E) i e
             end).
Proof.
  intros Hi. split; [apply _identify_person_async_length|].
  now apply _identify_person_async_nth.
Qed.

(** X4. When the tasks are [call_verifier] calls, no entry of the batch
    is an exception record: the outcome at a task's position carries
    that task's service name and endpoint, with no error after an
    answer and the handled exception's text after a failure. *)
Theorem X4_adapter_outcomes_name_their_task (E : env)
    (posts : nat -> exc response) (image_b64 : string) (timeout_s : Z)
    (req_id : string) (w : world) (i : nat)
    (name_ : option string) (endpoint_ : string) :
  verify E = adapter_task posts image_b64 timeout_s req_id w ->
  nth_error (build_tasks (registry_async E)) i = Some (name_, endpoint_) ->
  exists o,
    nth_error (_identify_person_async E) i = Some o
    /\ service_name o = name_ /\ endpoint o = endpoint_
    /\ match posts i with
       | Ok r => error o = None /\ timeout o = false
                 /\ status_code o = Some (resp_status_code r)
       | Raise e => error o = Some (error_text e) /\ result o = VNone
                    /\ timeout o = is_class TimeoutException e
       end.
Proof.
  intros Hv Hi.
  rewrite (_identify_person_async_nth E i name_ endpoint_ Hi), Hv.
  unfold adapter_task.
  destruct (call_verifier_returns (posts i) name_ endpoint_ image_b64 timeout_s
              (Some req_id) w) as (o & Ho & Hn & Hu & Hp).
  rewrite Ho. exists o. split; [reflexivity|]. split; [exact Hn|]. split; [exact Hu|].
  destruct (posts i); tauto.
Qed.

End FanOutMore.

(* ================================================================== *)
(** * Faults of the dispatched calls *)
(* ================================================================== *)

Section DispatchedFaults.





End DispatchedFaults.

(* ================================================================== *)
(** * The verifier call adapter, continued *)
(* ================================================================== *)

Section AdapterMore.

(** The outcome and the world after a call, in closed form. *)
Lemma call_verifier_run post name_ endpoint_ image_b64 timeout_s request_id w :
  let t0 := clock w (ticks w) in
  let t1 := clock w (S (ticks w)) in
  let o :=
    {| service_name := name_; endpoint := endpoint_;
       latency_ms := elapsed_ms t0 t1;
       status_code := match post with
                      | Ok r => Some (resp_status_code r)
                      | Raise _ => None
                      end;
       result := match post with
                 | Ok r => match resp_json r with Ok d => d | Raise _ => VNone end
                 | Raise _ => VNone
                 end;
       timeout := match post with
                  | Ok _ => false
                  | Raise e => is_class TimeoutException e
                  end;
       error := match post with
                | Ok _ => None
                | Raise e => Some (error_text e)
                end |} in
  let w' := snd (call_verifier post name_ endpoint_ image_b64 timeout_s request_id w) in
  fst (call_verifier post name_ endpoint_ image_b64 timeout_s request_id w) = Ok o
  /\ access_logs w' = access_logs w
  /\ service_logs w'
     = (service_logs w
        ++ match request_id, get_db_fault w, insert_fault w with
           | Some rid, None, None =>
               [{| sl_request_id := rid;
                   sl_ts := clock w (S (S (ticks w)));
                   sl_service_type := "pp2";
                   sl_service_name := name_;
                   sl_endpoint := endpoint_;
                   sl_latency_ms := latency_ms o;
                   sl_status_code := status_code o;
                   sl_result := result o;
                   sl_timeout := timeout o;
                   sl_error := error o |}]
           | _, _, _ => []
           end)%list.
Proof.
  unfold call_verifier, call_verifier_except, _log_service_call, bind, attempt, lift,
    try_except, time_time, get_db, insert_service_log, any_exception, ret, error_text.
  destruct post as [r|e]; cbn [fst snd clock ticks get_db_fault insert_fault
                                 service_logs access_logs].
  - destruct request_id as [rid|];
      cbn [fst snd clock ticks get_db_fault insert_fault service_logs access_logs];
      [|rewrite app_nil_r; auto].
    destruct (get_db_fault w);
      cbn [fst snd clock ticks get_db_fault insert_fault service_logs access_logs];
      [rewrite app_nil_r; auto|].
    destruct (insert_fault w);
      cbn [fst snd clock ticks get_db_fault insert_fault service_logs access_logs];
      [rewrite app_nil_r; auto|auto].
  - destruct request_id as [rid|];
      cbn [fst snd clock ticks get_db_fault insert_fault service_logs access_logs].
    + destruct (get_db_fault w);
        cbn [fst snd clock ticks get_db_fault insert_fault service_logs access_logs].
      * rewrite app_nil_r.
        destruct (is_class TimeoutException e); [auto|].
        destruct (is_class ConnectError e); auto.
      * destruct (insert_fault w);
          cbn [fst snd clock ticks get_db_fault insert_fault service_logs access_logs].
        -- rewrite app_nil_r.
           destruct (is_class TimeoutException e); [auto|].
           destruct (is_class ConnectError e); auto.
        -- destruct (is_class TimeoutException e); [auto|].
           destruct (is_class ConnectError e); auto.
    + rewrite app_nil_r.
      destruct (is_class TimeoutException e); [auto|].
      destruct (is_class ConnectError e); auto.
Qed.

(** X5. The outcome [call_verifier] returns does not depend on the audit
    sink: with the same clock, it is the same whether or not a request
    id is given, whether [get_db()] or [insert_one] raise, and whatever
    the logs hold. *)
Theorem X5_outcome_independent_of_audit post name_ endpoint_ image_b64 timeout_s
    (request_id request_id' : option string) (w w' : world) :
  same_clock w w' ->
  fst (call_verifier post name_ endpoint_ image_b64 timeout_s request_id w)
  = fst (call_verifier post name_ endpoint_ image_b64 timeout_s request_id' w').
Proof.
  intros [Ht Hc].
  destruct (call_verifier_run post name_ endpoint_ image_b64 timeout_s request_id w)
    as (H & _).
  destruct (call_verifier_run post name_ endpoint_ image_b64 timeout_s request_id' w')
    as (H' & _).
  rewrite H, H', <- Ht, !Hc. reflexivity.
Qed.

(** X6. On every path (answer, timeout, connection failure, other
    failure) the outcome's latency_ms is (t1 - t0) * 1000 for the clock
    readings t0 at entry and t1 when the call settled. *)
Theorem X6_latency_recorded_on_every_path post name_ endpoint_ image_b64 timeout_s
    request_id w :
  exists o,
    fst (call_verifier post name_ endpoint_ image_b64 timeout_s request_id w) = Ok o
    /\ latency_ms o
       = PyFloat.mul (PyFloat.sub (clock w (S (ticks w))) (clock w (ticks w)))
           PyFloat.f1000.
Proof.
  destruct (call_verifier_run post name_ endpoint_ image_b64 timeout_s request_id w)
    as (H & _).
  eexists. split; [exact H|]. reflexivity.
Qed.

(** X7. With a request id and a working sink, a call appends exactly one
    document to service_logs, tagged "pp2", holding the request id, the
    service name and endpoint called, and the latency, status, result,
    timeout flag and error of the outcome it returns; access_logs is not
    touched. *)
Theorem X7_one_service_log_mirrors_outcome post name_ endpoint_ image_b64 timeout_s
    (rid : string) (w : world) :
  get_db_fault w = None ->
  insert_fault w = None ->
  exists o,
    fst (call_verifier post name_ endpoint_ image_b64 timeout_s (Some rid) w) = Ok o
    /\ service_logs (snd (call_verifier post name_ endpoint_ image_b64 timeout_s
                            (Some rid) w))
       = (service_logs w
          ++ [{| sl_request_id := rid;
                 sl_ts := clock w (S (S (ticks w)));
                 sl_service_type := "pp2";
                 sl_service_name := name_;
                 sl_endpoint := endpoint_;
                 sl_latency_ms := latency_ms o;
                 sl_status_code := status_code o;
                 sl_result := result o;
                 sl_timeout := timeout o;
                 sl_error := error o |}])%list
    /\ access_logs (snd (call_verifier post name_ endpoint_ image_b64 timeout_s
                           (Some rid) w))
       = access_logs w.
Proof.
  intros Hg Hi.
  destruct (call_verifier_run post name_ endpoint_ image_b64 timeout_s (Some rid) w)
    as (H & Ha & Hs).
  rewrite Hg, Hi in Hs.
  eexists. split; [exact H|]. split; [exact Hs|exact Ha].
Qed.

(** X8. Without a request id, or when [get_db()] or [insert_one] raises,
    the call writes nothing: both logs are as before, and the call
    still returns its outcome. *)
Theorem X8_no_log_without_id_or_sink post name_ endpoint_ image_b64 timeout_s
    (request_id : option string) (w : world) :
  request_id = None \/ get_db_fault w <> None \/ insert_fault w <> None ->
  (exists o,
     fst (call_verifier post name_ endpoint_ image_b64 timeout_s request_id w) = Ok o)
  /\ service_logs (snd (call_verifier post name_ endpoint_ image_b64 timeout_s
                          request_id w)) = service_logs w
  /\ access_logs (snd (call_verifier post name_ endpoint_ image_b64 timeout_s
                         request_id w)) = access_logs w.
Proof.
  intros Hcase.
  destruct (call_verifier_run post name_ endpoint_ image_b64 timeout_s request_id w)
    as (H & Ha & Hs).
  split; [eauto|]. split; [|exact Ha].
  rewrite Hs.
  destruct request_id as [rid|]; [|apply app_nil_r].
  destruct (get_db_fault w); [apply app_nil_r|].
  destruct (insert_fault w); [apply app_nil_r|].
  destruct Hcase as [?|[?|?]]; congruence.
Qed.

End AdapterMore.

(* ================================================================== *)
(** * identify_person, continued *)
(* ================================================================== *)

Section PipelineMore.
Context {B : Builtins}.

(** The result and the world after [identify_person], in closed form,
    once the candidates are built. *)
Lemma identify_person_run E image_b64 timeout_s delta w cs :
  build_candidates (_identify_person_async E) = Ok cs ->
  let run := identify_person E image_b64 timeout_s delta w in
  let r :=
    {| r_decision := fst (decide (registry_sync E) delta (sort_by_score cs));
       r_identity := snd (decide (registry_sync E) delta (sort_by_score cs));
       r_candidates := sort_by_score cs;
       r_timing_ms := elapsed_ms (clock w (ticks w)) (clock w (S (ticks w)));
       r_request_id := uuid4_hex E |} in
  service_logs (snd run) = service_logs w
  /\ match get_db_fault w with
     | Some e => fst run = Raise e /\ access_logs (snd run) = access_logs w
     | None =>
         fst run = Ok r
         /\ access_logs (snd run)
            = (access_logs w
               ++ match insert_fault w with
                  | Some _ => []
                  | None =>
                      [{| al_request_id := uuid4_hex E;
                          al_ts := clock w (S (S (ticks w)));
                          al_route := "/identify-and-answer";
                          al_decision := r_decision r;
                          al_identity := r_identity r;
                          al_total_consulted := List.length (_identify_person_async E);
                          al_timeouts := count_timeouts (_identify_person_async E);
                          al_timing_ms := r_timing_ms r;
                          al_status_code := 200 |}]
                  end)%list
     end.
Proof.
  intros Hb. unfold identify_person, bind, lift, try_except, time_time, get_db, ret,
    insert_access_log, any_exception.
  cbn [fst snd clock ticks get_db_fault insert_fault service_logs access_logs].
  rewrite Hb.
  destruct (decide (registry_sync E) delta (sort_by_score cs)) as [d i].
  cbn [fst snd clock ticks get_db_fault insert_fault service_logs access_logs].
  destruct (get_db_fault w);
    cbn [fst snd clock ticks get_db_fault insert_fault service_logs access_logs];
    [auto|].
  destruct (insert_fault w);
    cbn [fst snd clock ticks get_db_fault insert_fault service_logs access_logs];
    rewrite ?app_nil_r; auto.
Qed.

Lemma build_candidates_length results cs :
  build_candidates results = Ok cs ->
  List.length cs = List.length (filter has_score_payload results).
Proof.
  revert cs. induction results as [|o rest IH]; intros cs; cbn [build_candidates filter].
  - now intros [= <-].
  - unfold candidate_of, has_score_payload.
    destruct (result o) as [| | | | | |res]; cbn [exc_bind];
      try (destruct (build_candidates rest) as [cs'|]; cbn [exc_bind];
           [intros [= <-]; now apply IH|discriminate]).
    destruct (contains "score" res); cbn [exc_bind].
    + destruct (coerce_fields res) as [[[[m s] t] g]|]; cbn [exc_bind]; [|discriminate].
      destruct (build_candidates rest) as [cs'|]; cbn [exc_bind]; [|discriminate].
      intros [= <-]. cbn [List.length]. f_equal. now apply IH.
    + destruct (build_candidates rest) as [cs'|]; cbn [exc_bind]; [|discriminate].
      intros [= <-]. now apply IH.
Qed.

Lemma build_candidates_none results :
  Forall (fun o => has_score_payload o = false) results ->
  build_candidates results = Ok [].
Proof.
  induction 1 as [|o rest Ho _ IH]; [reflexivity|].
  cbn [build_candidates]. rewrite IH. unfold candidate_of.
  unfold has_score_payload in Ho.
  destruct (result o); try reflexivity. rewrite Ho. reflexivity.
Qed.

(** X9. A returned result has one candidate for each outcome whose
    payload is an object with a "score" key, and so never more
    candidates than calls dispatched. *)
Theorem X9_candidates_counted E image_b64 timeout_s delta w r :
  fst (identify_person E image_b64 timeout_s delta w) = Ok r ->
  List.length (r_candidates r)
  = List.length (filter has_score_payload (_identify_person_async E))
  /\ (List.length (r_candidates r) <= List.length (build_tasks (registry_async E)))%nat.
Proof.
  intros Hrun.
  destruct (identify_person_returns _ _ _ _ _ _ Hrun) as (cs & Hb & Hc & _).
  assert (Hlen : List.length (r_candidates r)
                 = List.length (filter has_score_payload (_identify_person_async E))).
  { rewrite Hc, (Permutation_length (sort_by_score_perm cs)).
    now apply build_candidates_length. }
  split; [exact Hlen|].
  rewrite Hlen, <- _identify_person_async_length. apply filter_length_le.
Qed.

(** X10. When no outcome carries an object with a "score" key (nothing
    was dispatched, or every call failed or answered something else),
    and [get_db()] gives a handle, the result is unknown, without
    identity and without candidates. *)
Theorem X10_no_usable_payload_is_unknown E image_b64 timeout_s delta w :
  Forall (fun o => has_score_payload o = false) (_identify_person_async E) ->
  get_db_fault w = None ->
  exists r,
    fst (identify_person E image_b64 timeout_s delta w) = Ok r
    /\ r_decision r = unknown /\ r_identity r = None /\ r_candidates r = [].
Proof.
  intros Hall Hg.
  pose proof (identify_person_run E image_b64 timeout_s delta w []
                (build_candidates_none _ Hall)) as [_ H].
  rewrite Hg in H. destruct H as [H _].
  eexists. split; [exact H|]. cbn. auto.
Qed.



(** X12. [get_db()] is called outside the [try]: when it raises and the
    candidates were built, [identify_person] raises that exception
    instead of returning its decision, and writes no log. *)
Theorem X12_get_db_failure_propagates E image_b64 timeout_s delta w cs e :
  build_candidates (_identify_person_async E) = Ok cs ->
  get_db_fault w = Some e ->
  fst (identify_person E image_b64 timeout_s delta w) = Raise e
  /\ access_logs (snd (identify_person E image_b64 timeout_s delta w)) = access_logs w
  /\ service_logs (snd (identify_person E image_b64 timeout_s delta w)) = service_logs w.
Proof.
  intros Hb Hg.
  pose proof (identify_person_run E image_b64 timeout_s delta w cs Hb) as [Hs H].
  rewrite Hg in H. destruct H as [H Ha]. auto.
Qed.

(** X13. What [identify_person] returns does not depend on whether the
    access log can be written nor on what the logs hold: two worlds with
    the same clock and the same [get_db()] behaviour give the same
    result (or the same exception). *)
Theorem X13_result_independent_of_access_log E image_b64 timeout_s delta w w' :
  same_clock w w' ->
  get_db_fault w = get_db_fault w' ->
  fst (identify_person E image_b64 timeout_s delta w)
  = fst (identify_person E image_b64 timeout_s delta w').
Proof.
  intros [Ht Hc] Hg.
  destruct (build_candidates (_identify_person_async E)) as [cs|e] eqn:Hb.
  - pose proof (identify_person_run E image_b64 timeout_s delta w cs Hb) as [_ H].
    pose proof (identify_person_run E image_b64 timeout_s delta w' cs Hb) as [_ H'].
    rewrite <- Hg in H'.
    destruct (get_db_fault w).
    + destruct H as [-> _], H' as [-> _]. reflexivity.
    + destruct H as [-> _], H' as [-> _]. rewrite <- Ht, !Hc. reflexivity.
  - unfold identify_person, bind, lift, time_time.
    cbn [fst snd]. rewrite Hb. reflexivity.
Qed.

(** X14. When the sink works, a returning run appends exactly one
    document to access_logs: it holds the request id, the route
    "/identify-and-answer", the decision, the identity and the timing
    that the run returns, the number of outcomes consulted (one per
    dispatched task), the number of them with timeout set, and status
    200. *)
Theorem X14_access_log_written E image_b64 timeout_s delta w r :
  get_db_fault w = None ->
  insert_fault w = None ->
  fst (identify_person E image_b64 timeout_s delta w) = Ok r ->
  exists entry,
    access_logs (snd (identify_person E image_b64 timeout_s delta w))
    = (access_logs w ++ [entry])%list
    /\ al_request_id entry = r_request_id r
    /\ al_route entry = "/identify-and-answer"
    /\ al_decision entry = r_decision r
    /\ al_identity entry = r_identity r
    /\ al_total_consulted entry = List.length (build_tasks (registry_async E))
    /\ al_timeouts entry = List.length (filter timeout (_identify_person_async E))
    /\ al_timing_ms entry = r_timing_ms r
    /\ al_status_code entry = 200.
Proof.
  intros Hg Hi Hrun.
  destruct (identify_person_returns _ _ _ _ _ _ Hrun) as (cs & Hb & _).
  pose proof (identify_person_run E image_b64 timeout_s delta w cs Hb) as [_ H].
  rewrite Hg, Hi in H. destruct H as [H Ha].
  rewrite H in Hrun. injection Hrun as <-.
  eexists. split; [exact Ha|]. cbn.
  rewrite _identify_person_async_length. auto 10.
Qed.

End PipelineMore.

(* ================================================================== *)
(** * Ranking and ties *)
(* ================================================================== *)

Section RankingMore.
Context {B : Builtins}.

Lemma sort_by_score_sorted (l : list candidate) :
  no_nan_score l -> ranked_descending (sort_by_score l).
Proof.
  induction l as [|x l IH]; intros Hnan; [constructor|].
  inversion Hnan as [|? ? Hx Hl]; subst.
  cbn [sort_by_score fold_right]. fold (sort_by_score l).
  apply insert_by_score_sorted; [|now apply IH].
  unfold no_nan_score.
  apply (Permutation_Forall (Permutation_sym (sort_by_score_perm l))). exact Hl.
Qed.

Lemma filter_head_find {A} (f : A -> bool) (l : list A) (x : A) (t : list A) :
  filter f l = x :: t -> find f l = Some x.
Proof.
  induction l as [|y l IH]; cbn; [discriminate|].
  destruct (f y); [now intros [= -> _]|exact IH].
Qed.

(** X15. When no score is NaN, the top-ranked candidate has a score that
    no candidate exceeds, and among the candidates with that score it is
    the first in dispatch order. *)
Theorem X15_top_is_first_maximum (cs : list candidate) (top : candidate)
    (rest : list candidate) :
  no_nan_score cs ->
  sort_by_score cs = top :: rest ->
  Forall (fun c => PyFloat.le (c_score c) (c_score top) = true) cs
  /\ find (fun c => PyFloat.eqb (c_score c) (c_score top)) cs = Some top.
Proof.
  intros Hnan Hsort.
  pose proof (sort_by_score_perm cs) as Hperm. rewrite Hsort in Hperm.
  pose proof (sort_by_score_sorted cs Hnan) as Hs. rewrite Hsort in Hs.
  inversion Hs as [|? ? _ Hall]; subst.
  unfold no_nan_score in Hnan. rewrite Forall_forall in Hnan, Hall.
  assert (Htop : PyFloat.is_nan (c_score top) = false).
  { apply Hnan. eapply Permutation_in; [exact Hperm|now left]. }
  split.
  - rewrite Forall_forall. intros c Hc.
    apply float_not_lt_ge; [exact Htop|now apply Hnan|].
    assert (In c (top :: rest)) as [<-|Hin]
      by (eapply Permutation_in; [apply Permutation_sym, Hperm|exact Hc]).
    + apply float_lt_irrefl.
    + now apply Hall.
  - pose proof (sort_by_score_stable cs (c_score top)) as Hst.
    rewrite Hsort in Hst. cbn [filter] in Hst.
    rewrite (float_eqb_refl _ Htop) in Hst.
    eapply filter_head_find. symmetry. exact Hst.
Qed.

Lemma float_sub_self (x : PyFloat.float) :
  is_finite x = true -> PyFloat.sub x x = PyFloat.zero.
Proof.
  destruct x as [[|]|s| |s m e]; cbn; try discriminate; try reflexivity.
  intros _. unfold PyFloat.sub, SFsub, shl_align.
  rewrite Z.min_id.
  replace (IntDef.Z.sub e e) with 0 by (symmetry; apply Z.sub_diag).
  cbn [fst].
  set (a := cond_Zopp s (Zpos m)).
  replace (IntDef.Z.sub a a) with 0 by (symmetry; apply Z.sub_diag).
  reflexivity.
Qed.

(** X16. An exact tie is ambiguous for every delta >= 0, also delta 0:
    when the two best candidates have the same finite score and the top
    one has is_me true and meets the registry threshold, the decision is
    ambiguous with no identity. *)
Theorem X16_exact_tie_is_ambiguous (pp2_list : list descriptor) (delta : PyFloat.float)
    (top second : candidate) (rest : list candidate) :
  c_score second = c_score top ->
  is_finite (c_score top) = true ->
  c_is_me top = true ->
  PyFloat.ge (c_score top) (resolve_threshold pp2_list top) = true ->
  PyFloat.le PyFloat.zero delta = true ->
  decide pp2_list delta (top :: second :: rest) = (ambiguous, None).
Proof.
  intros Hs Hf Hme Hge Hd. unfold decide.
  rewrite Hme, Hge. cbn [andb List.length Nat.ltb Nat.leb nth_error].
  rewrite Hs, (float_sub_self _ Hf), Hd. reflexivity.
Qed.

End RankingMore.

(* ================================================================== *)
(** * The decision and the ranking *)
(* ================================================================== *)

Section DecisionOnRanking.
Context {B : Builtins}.

(** Where no score is NaN, the list the decision is taken on is the
    ranking of the candidates built from the outcomes: a rearrangement
    of them in descending order of score that keeps candidates of equal
    score in dispatch order. The decision and identity are those of §4.3
    on that list. *)
Lemma decision_follows_ranking E image_b64 timeout_s delta w r :
  fst (identify_person E image_b64 timeout_s delta w) = Ok r ->
  exists cs,
    build_candidates (_identify_person_async E) = Ok cs
    /\ r_candidates r = sort_by_score cs
    /\ Permutation (r_candidates r) cs
    /\ (no_nan_score cs ->
        ranked_descending (r_candidates r)
        /\ same_order_among_equals cs (r_candidates r))
    /\ (r_decision r, r_identity r)
       = spec_decide (spec_tau (registry_sync E)) delta (r_candidates r).
Proof.
  intros Hrun.
  destruct (identify_person_returns _ _ _ _ _ _ Hrun) as (cs & Hb & Hc & Hd).
  exists cs. split; [exact Hb|]. split; [exact Hc|].
  split; [rewrite Hc; apply sort_by_score_perm|].
  split; [intros Hnan; rewrite Hc; apply (ranking_descending_and_stable cs Hnan)|].
  rewrite Hd, Hc. apply decide_spec_decide.
Qed.

(** An identity that §4.3 reports carries the score of the first of the
    ranked candidates. *)
Lemma spec_decide_identity_score tau delta top rest i :
  snd (spec_decide tau delta (top :: rest)) = Some i -> id_score i = c_score top.
Proof.
  unfold spec_decide.
  destruct (c_is_me top && PyFloat.ge (c_score top) (tau (c_service top)));
    [|discriminate].
  destruct rest as [|second rest'].
  - cbn. intros [= <-]. reflexivity.
  - destruct (PyFloat.le (PyFloat.sub (c_score top) (c_score second)) delta); cbn;
      [discriminate|intros [= <-]; reflexivity].
Qed.

(** In a descending arrangement no candidate stands before one of
    strictly greater score. *)
Lemma ranked_descending_head top rest c :
  ranked_descending (top :: rest) -> In c rest ->
  PyFloat.lt (c_score top) (c_score c) = false.
Proof.
  intros Hs Hin. inversion Hs as [|? ? _ Hall]; subst.
  rewrite Forall_forall in Hall. exact (Hall c Hin).
Qed.

End DecisionOnRanking.

Lemma single_run_of_three (a b c : candidate) :
  PyFloat.lt (c_score a) (c_score b) = false ->
  PyFloat.lt (c_score b) (c_score c) = false ->
  single_run [a; b; c].
Proof.
  intros Hab Hbc pre x y post Heq.
  destruct pre as [|p1 [|p2 [|p3 pre]]]; cbn in Heq.
  - injection Heq as <- <- _. exact Hab.
  - injection Heq as _ <- <- _. exact Hbc.
  - injection Heq as _ _ _ Hnil. discriminate Hnil.
  - injection Heq as _ _ _ Hnil. destruct pre; discriminate Hnil.
Qed.

(** C6, at the failing input. A, B and C answer 1.0, NaN and 2.0 (a
    response body may hold NaN, which [json] reads as the float). No
    comparison with NaN is true, so no element is [<] its right
    neighbour and the sort leaves the list as it is: the candidate of
    score 1.0 is ranked above the one of score 2.0, against "Sort
    candidates by score (highest first)" (fuse.py 119), and the run
    identifies it with score 1.0. *)
Theorem C6_nan_score_defeats_the_sort :
  single_run nan_in_the_middle
  /\ sort_by_score nan_in_the_middle = nan_in_the_middle
  /\ PyFloat.lt (PyFloat.of_Z 1) (PyFloat.of_Z 2) = true
  /\ ~ ranked_descending (sort_by_score nan_in_the_middle)
  /\ single_run (nan_from_B_candidates (PyFloat.of_Z 1) (PyFloat.of_Z 2))
  /\ fst (identify_person (B:=sample_builtins)
            (nan_from_B (PyFloat.of_Z 1) (PyFloat.of_Z 2)) "img" 15 default_delta
            quiet_world)
     = Ok (first_identified (PyFloat.of_Z 1) (PyFloat.of_Z 2)).
Proof.
  assert (Hl : sort_by_score nan_in_the_middle = nan_in_the_middle)
    by (vm_compute; reflexivity).
  split; [apply single_run_of_three; vm_compute; reflexivity|].
  split; [exact Hl|]. split; [vm_compute; reflexivity|]. split.
  - rewrite Hl. intros Hs.
    assert (Hlt : PyFloat.lt (c_score (scored "A" (PyFloat.of_Z 1)))
                    (c_score (scored "C" (PyFloat.of_Z 2))) = false).
    { apply (ranked_descending_head _ _ _ Hs). right. left. reflexivity. }
    vm_compute in Hlt. discriminate Hlt.
  - split; [apply single_run_of_three; vm_compute; reflexivity|].
    vm_compute. reflexivity.
Qed.

(** C1, at the failing input. A, B and C answer 0.95, NaN and 0.97, all
    with is_me true, and delta is 0.05. The sort leaves the candidates
    in dispatch order (no element is [<] its right neighbour), 0.95
    stays first, and the run returns identified with score 0.95. Ranked
    by score, 0.97 is on top with 0.95 within delta of it, and §4.3
    gives ambiguous; on no descending arrangement of these candidates
    does §4.3 give what the run returns. *)
Theorem C1_nan_score_misleads_the_decision :
  fst (identify_person (B:=sample_builtins)
         (nan_from_B (PyFloat.ratio 95 100) (PyFloat.ratio 97 100)) "img" 15
         default_delta quiet_world)
  = Ok (first_identified (PyFloat.ratio 95 100) (PyFloat.ratio 97 100))
  /\ single_run (nan_from_B_candidates (PyFloat.ratio 95 100) (PyFloat.ratio 97 100))
  /\ spec_decide (spec_tau (B:=sample_builtins) [verifier_A; verifier_B; verifier_C])
       default_delta
       [answered_with "C" (PyFloat.ratio 97 100);
        answered_with "A" (PyFloat.ratio 95 100);
        answered_with "B" S754_nan]
     = (ambiguous, None)
  /\ forall ranked : list candidate,
       Permutation (nan_from_B_candidates (PyFloat.ratio 95 100) (PyFloat.ratio 97 100))
         ranked ->
       ranked_descending ranked ->
       spec_decide (spec_tau (B:=sample_builtins) [verifier_A; verifier_B; verifier_C])
         default_delta ranked
       <> (r_decision (first_identified (PyFloat.ratio 95 100) (PyFloat.ratio 97 100)),
           r_identity (first_identified (PyFloat.ratio 95 100) (PyFloat.ratio 97 100))).
Proof.
  split; [vm_compute; reflexivity|].
  split; [apply single_run_of_three; vm_compute; reflexivity|].
  split; [vm_compute; reflexivity|].
  intros ranked Hp Hs Heq.
  destruct ranked as [|top rest].
  { apply Permutation_sym, Permutation_nil in Hp. discriminate Hp. }
  assert (Hscore : c_score top = PyFloat.ratio 95 100).
  { symmetry.
    apply (spec_decide_identity_score
             (spec_tau (B:=sample_builtins) [verifier_A; verifier_B; verifier_C])
             default_delta top rest
             {| id_score := PyFloat.ratio 95 100; id_threshold := PyFloat.f0_9;
                id_is_me := true |}).
    rewrite Heq. reflexivity. }
  assert (Hin : In (answered_with "C" (PyFloat.ratio 97 100)) (top :: rest)).
  { apply (Permutation_in _ Hp). right. right. left. reflexivity. }
  destruct Hin as [Htop|Hin].
  - rewrite Htop in Hscore. vm_compute in Hscore. discriminate Hscore.
  - pose proof (ranked_descending_head _ _ _ Hs Hin) as Hlt.
    rewrite Hscore in Hlt. vm_compute in Hlt. discriminate Hlt.
Qed.

(* ================================================================== *)
(** * Citations, continued *)
(* ================================================================== *)

Section CitationsMore.
Context {B : Builtins}.

(** What a kept citation is made of. *)
Lemma normalize_citation_shape (v : value) (n : list (string * string)) :
  normalize_citation v = Some n ->
  exists c,
    v = VDict c /\ truthy (doc_of c) = true
    /\ n = (("doc", py_str (doc_of c))
            :: (if truthy (page_of c) then [("page", py_str (page_of c))]
                else if truthy (section_of c) then [("section", py_str (section_of c))]
                else [])
            ++ [("url", if truthy (url_of c) then py_str (url_of c) else "")])%list.
Proof.
  destruct v as [| | | | | |c]; try discriminate.
  unfold normalize_citation.
  change (py_or (get c "doc")
            (py_or (get c "document") (py_or (get c "title") (get c "name"))))
    with (doc_of c).
  change (py_or (get c "page") (get c "p")) with (page_of c).
  change (py_or (get c "section") (py_or (get c "sec") (get c "section_number")))
    with (section_of c).
  change (py_or (get c "url") (py_or (get c "link") (get c "href"))) with (url_of c).
  destruct (truthy (doc_of c)) eqn:Hdoc; cbn [negb]; [|discriminate].
  intros [= <-]. exists c. split; [reflexivity|]. split; [exact Hdoc|].
  destruct (truthy (page_of c)), (truthy (section_of c)), (truthy (url_of c));
    reflexivity.
Qed.

(** X17. A citation that [normalize_citation] keeps has the keys doc and
    url, and between them at most one of page and section: its keys are
    doc, url or doc, page, url or doc, section, url. *)
Theorem X17_normalized_citation_keys (v : value) (n : list (string * string)) :
  normalize_citation v = Some n -> well_formed_citation n.
Proof.
  intros H. destruct (normalize_citation_shape v n H) as (c & _ & _ & ->).
  unfold well_formed_citation.
  destruct (truthy (page_of c)); [cbn; auto|].
  destruct (truthy (section_of c)); cbn; auto.
Qed.

Lemma normalize_each_spec (l : list value) :
  Forall (fun n => exists x, normalize_citation x = Some n) (normalize_each l)
  /\ (List.length (normalize_each l) <= List.length l)%nat.
Proof.
  induction l as [|x l [IH1 IH2]]; cbn [normalize_each List.length].
  - split; [constructor|lia].
  - destruct (normalize_citation x) as [[|b n]|] eqn:Hx.
    + split; [exact IH1|lia].
    + split; [constructor; eauto|cbn; lia].
    + split; [exact IH1|lia].
Qed.

Lemma normalize_citations_spec (v : value) :
  Forall (fun n => exists x, normalize_citation x = Some n) (normalize_citations v)
  /\ (List.length (normalize_citations v)
      <= match v with
         | VList l => List.length l
         | VDict _ => 1
         | _ => 0
         end)%nat.
Proof.
  unfold normalize_citations.
  destruct (truthy v); cbn [negb]; [|split; [constructor|apply Nat.le_0_l]].
  destruct v as [| | | | |l|c]; try (split; [constructor|cbn; lia]).
  - apply normalize_each_spec.
  - destruct (normalize_citation (VDict c)) as [[|b n]|] eqn:Hc.
    + split; [constructor|cbn; lia].
    + split; [constructor; [eauto|constructor]|cbn; lia].
    + split; [constructor|cbn; lia].
Qed.

(** X18. Whatever it is given (an object, a list, anything else),
    [normalize_citations] returns only citations with the keys of X17,
    at most one per element of a list and at most one for a single
    object, and none for any other input. *)
Theorem X18_normalized_list_well_formed (v : value) :
  Forall well_formed_citation (normalize_citations v)
  /\ (List.length (normalize_citations v)
      <= match v with
         | VList l => List.length l
         | VDict _ => 1
         | _ => 0
         end)%nat.
Proof.
  destruct (normalize_citations_spec v) as [H1 H2]. split; [|exact H2].
  eapply Forall_impl; [|exact H1]. cbn. intros n [x Hx].
  destruct (normalize_citation_shape x n Hx) as (c & _ & _ & ->).
  unfold well_formed_citation.
  destruct (truthy (page_of c)); [cbn; auto|].
  destruct (truthy (section_of c)); cbn; auto.
Qed.

End CitationsMore.

(* ================================================================== *)
(** * Normalizing twice *)
(* ================================================================== *)

Section Idempotence.
Context {B : Builtins}.
Hypothesis Hrepr : repr_nonempty B.

Lemma py_str_nonempty (v : value) : truthy v = true -> py_str v <> "".
Proof using Hrepr.
  destruct v as [|[|]|z|f|s|l|d]; cbn; try discriminate; try (intros _; apply Hrepr).
  - destruct z as [|p|p]; cbn; try discriminate.
    + intros _. unfold NilZero.string_of_uint.
      destruct (Pos.to_uint p); discriminate.
  - destruct s; [discriminate|]. intros _. discriminate.
Qed.

Lemma normalize_citation_again (v : value) (n : list (string * string)) :
  normalize_citation v = Some n ->
  normalize_citation (citation_value n) = Some n /\ n <> [].
Proof using Hrepr.
  intros H. destruct (normalize_citation_shape v n H) as (c & _ & Hdoc & ->).
  split; [|discriminate].
  pose proof (py_str_nonempty _ Hdoc) as Hd.
  destruct (py_str (doc_of c)) as [|a ds]; [congruence|]. clear Hd.
  assert (Hu : exists us, (if truthy (url_of c) then py_str (url_of c) else "") = us
                          /\ forall x, us = x -> True) by eauto.
  destruct (truthy (url_of c)) eqn:Hurl.
  - pose proof (py_str_nonempty _ Hurl) as Hu'.
    destruct (py_str (url_of c)) as [|b us]; [congruence|].
    destruct (truthy (page_of c)) eqn:Hpage.
    + pose proof (py_str_nonempty _ Hpage) as Hp.
      destruct (py_str (page_of c)) as [|p ps]; [congruence|]. reflexivity.
    + destruct (truthy (section_of c)) eqn:Hsec; [|reflexivity].
      pose proof (py_str_nonempty _ Hsec) as Hs.
      destruct (py_str (section_of c)) as [|p ps]; [congruence|]. reflexivity.
  - destruct (truthy (page_of c)) eqn:Hpage.
    + pose proof (py_str_nonempty _ Hpage) as Hp.
      destruct (py_str (page_of c)) as [|p ps]; [congruence|]. reflexivity.
    + destruct (truthy (section_of c)) eqn:Hsec; [|reflexivity].
      pose proof (py_str_nonempty _ Hsec) as Hs.
      destruct (py_str (section_of c)) as [|p ps]; [congruence|]. reflexivity.
Qed.

Lemma normalize_each_again (l : list (list (string * string))) :
  Forall (fun n => exists x, normalize_citation x = Some n) l ->
  normalize_each (map citation_value l) = l.
Proof using Hrepr.
  induction 1 as [|n l [x Hx] _ IH]; [reflexivity|].
  cbn [map normalize_each].
  destruct (normalize_citation_again x n Hx) as [-> Hne].
  destruct n as [|b n]; [congruence|]. now rewrite IH.
Qed.

(** X19. Normalizing is idempotent: given its own output (the list of
    normalized citations as JSON objects), [normalize_citations] returns
    it unchanged. This needs only that the [str()] of a float, list or
    dict is never empty. *)
Theorem X19_normalize_citations_idempotent (v : value) :
  normalize_citations (citations_value (normalize_citations v)) = normalize_citations v.
Proof using Hrepr.
  destruct (normalize_citations_spec v) as [Hall _].
  generalize dependent (normalize_citations v). intros l Hall.
  unfold normalize_citations at 1, citations_value.
  destruct l as [|n l]; [reflexivity|].
  cbn [map truthy negb]. change (citation_value n :: map citation_value l)
    with (map citation_value (n :: l)).
  now apply normalize_each_again.
Qed.

End Idempotence.

(* ================================================================== *)
(** * ask_normativa and ask_normativa_tool *)
(* ================================================================== *)

Section Normativa.
Context {B : Builtins}.

Lemma lookup_setitem_same (k : string) (v : value) (d : dict) :
  lookup k (dict_setitem k v d) = Some v.
Proof.
  induction d as [|[k' v'] d IH]; cbn.
  - now rewrite String.eqb_refl.
  - destruct (String.eqb k k') eqn:Hk; cbn; rewrite ?String.eqb_refl, ?Hk; auto.
Qed.

Lemma lookup_setitem_other (k k0 : string) (v : value) (d : dict) :
  k0 <> k -> lookup k0 (dict_setitem k v d) = lookup k0 d.
Proof.
  intros Hne. induction d as [|[k' v'] d IH]; cbn.
  - destruct (String.eqb_spec k0 k); [congruence|reflexivity].
  - destruct (String.eqb_spec k k') as [<-|Hk]; cbn.
    + destruct (String.eqb_spec k0 k); [congruence|reflexivity].
    + destruct (String.eqb k0 k'); [reflexivity|exact IH].
Qed.

(** The outcome and the world after [ask_normativa], in closed form. *)
Lemma ask_normativa_run post name_ endpoint_ question timeout_s w :
  ask_normativa post name_ endpoint_ question timeout_s w
  = (Ok {| service_name := name_; endpoint := endpoint_;
           latency_ms := elapsed_ms (clock w (ticks w)) (clock w (S (ticks w)));
           status_code := match post with
                          | Responded r => Some (resp_status_code r)
                          | _ => None
                          end;
           result := match post with
                     | Responded r => normalized_body r
                     | _ => VNone
                     end;
           timeout := match post with RaisedTimeout => true | _ => false end;
           error := match post with
                    | Responded _ => None
                    | RaisedTimeout => Some "timeout"
                    | RaisedException text => Some text
                    end |},
     {| clock := clock w; ticks := S (S (ticks w));
        get_db_fault := get_db_fault w; insert_fault := insert_fault w;
        service_logs := service_logs w; access_logs := access_logs w |}).
Proof.
  unfold ask_normativa, bind, time_time, ret. destruct post; reflexivity.
Qed.

(** X20. When the backend answers a JSON object, [ask_normativa] returns
    it as result with every key other than "citations" untouched; a
    "citations" entry is replaced by the list of its normalized
    citations, each with the keys of X17; without that key the object is
    returned as it is. *)
Theorem X20_ask_normativa_normalizes_citations (r : response) (body : dict)
    name_ endpoint_ question timeout_s w :
  resp_json r = Ok (VDict body) ->
  exists o d,
    fst (ask_normativa (Responded r) name_ endpoint_ question timeout_s w) = Ok o
    /\ result o = VDict d /\ error o = None
    /\ status_code o = Some (resp_status_code r)
    /\ (forall k, k <> "citations" -> lookup k d = lookup k body)
    /\ (if contains "citations" body
        then exists l,
               lookup "citations" d = Some (citations_value l)
               /\ l = normalize_citations (get body "citations")
               /\ Forall well_formed_citation l
        else d = body).
Proof.
  intros Hj. rewrite ask_normativa_run. cbn [fst].
  unfold normalized_body. rewrite Hj.
  destruct (contains "citations" body) eqn:Hc.
  - eexists. eexists. split; [reflexivity|]. cbn [result error status_code].
    split; [reflexivity|]. split; [reflexivity|]. split; [reflexivity|].
    split; [intros k Hk; now apply lookup_setitem_other|].
    eexists. split; [apply lookup_setitem_same|]. split; [reflexivity|].
    destruct (normalize_citations_spec (get body "citations")) as [Hall _].
    eapply Forall_impl; [|exact Hall]. cbn. intros n [x Hx].
    destruct (normalize_citation_shape x n Hx) as (c & _ & _ & ->).
    unfold well_formed_citation.
    destruct (truthy (page_of c)); [cbn; auto|].
    destruct (truthy (section_of c)); cbn; auto.
  - eexists. eexists. split; [reflexivity|]. cbn [result error status_code].
    auto 10.
Qed.

Lemma normalized_body_truthy (r : response) :
  truthy (normalized_body r)
  = match resp_json r with
    | Ok v => truthy v
    | Raise _ => false
    end.
Proof.
  unfold normalized_body. destruct (resp_json r) as [v|]; [|reflexivity].
  destruct v as [| | | | | |d]; try reflexivity.
  destruct (contains "citations" d) eqn:Hc; [|reflexivity].
  destruct d as [|[k x] d]; [discriminate|].
  cbn [dict_setitem]. destruct (String.eqb "citations" k); reflexivity.
Qed.

(** The answer and the world after [ask_normativa_tool] with a PP1
    configured, in closed form. *)
Lemma ask_normativa_tool_run E question timeout_s w svc rest :
  registry_pp1 E = svc :: rest ->
  let run := ask_normativa_tool E question timeout_s w in
  let resp_result := match normativa_post E with
                     | Responded r => normalized_body r
                     | _ => VNone
                     end in
  let data := py_or resp_result (VDict []) in
  access_logs (snd run) = access_logs w
  /\ match get_db_fault w with
     | Some e => fst run = Raise e /\ service_logs (snd run) = service_logs w
     | None =>
         fst run = Ok {| a_text := match data with
                                   | VDict d => get d "text"
                                   | _ => VNone
                                   end;
                         a_citations := match data with
                                        | VDict d => get d "citations"
                                        | _ => VList []
                                        end |}
         /\ service_logs (snd run)
            = (service_logs w
               ++ match insert_fault w with
                  | Some _ => []
                  | None =>
                      [{| sl_request_id := n_uuid4_hex E;
                          sl_ts := clock w (S (S (S (ticks w))));
                          sl_service_type := "pp1";
                          sl_service_name := p_name svc;
                          sl_endpoint := p_endpoint svc;
                          sl_latency_ms :=
                            elapsed_ms (clock w (S (ticks w))) (clock w (S (S (ticks w))));
                          sl_status_code := match normativa_post E with
                                            | Responded r => Some (resp_status_code r)
                                            | _ => None
                                            end;
                          sl_result := resp_result;
                          sl_timeout := match normativa_post E with
                                        | RaisedTimeout => true
                                        | _ => false
                                        end;
                          sl_error := match normativa_post E with
                                      | Responded _ => None
                                      | RaisedTimeout => Some "timeout"
                                      | RaisedException text => Some text
                                      end |}]
                  end)%list
     end.
Proof.
  intros Hreg. unfold ask_normativa_tool. rewrite Hreg.
  unfold bind, try_except, time_time, get_db, ret, insert_service_log, any_exception.
  rewrite ask_normativa_run.
  cbn [fst snd clock ticks get_db_fault insert_fault service_logs access_logs
       latency_ms status_code result timeout error].
  destruct (get_db_fault w);
    cbn [fst snd clock ticks get_db_fault insert_fault service_logs access_logs];
    [auto|].
  destruct (insert_fault w);
    cbn [fst snd clock ticks get_db_fault insert_fault service_logs access_logs];
    rewrite ?app_nil_r; auto.
Qed.

(** X21. With no PP1 in the registry the tool answers text
    "No PP1 configured" with an empty citation list, whatever the state
    of the sink, and writes no log. *)
Theorem X21_no_pp1_configured E question timeout_s w :
  registry_pp1 E = [] ->
  fst (ask_normativa_tool E question timeout_s w)
  = Ok {| a_text := VStr "No PP1 configured"; a_citations := VList [] |}
  /\ service_logs (snd (ask_normativa_tool E question timeout_s w)) = service_logs w
  /\ access_logs (snd (ask_normativa_tool E question timeout_s w)) = access_logs w.
Proof.
  intros Hreg. unfold ask_normativa_tool. rewrite Hreg.
  unfold bind, time_time, ret. cbn. auto.
Qed.

(** X22. When the backend times out, fails, answers something that is
    not JSON, or answers a false value, and [get_db()] gives a handle,
    the tool returns text None and citations None (not an empty list),
    whether or not the log can be written. *)
Theorem X22_no_answer_gives_none E question timeout_s w svc rest :
  registry_pp1 E = svc :: rest ->
  get_db_fault w = None ->
  answered_nothing (normativa_post E) = true ->
  fst (ask_normativa_tool E question timeout_s w)
  = Ok {| a_text := VNone; a_citations := VNone |}.
Proof.
  intros Hreg Hg Hn.
  pose proof (ask_normativa_tool_run E question timeout_s w svc rest Hreg) as [_ H].
  rewrite Hg in H. destruct H as [-> _].
  unfold answered_nothing in Hn. unfold py_or.
  destruct (normativa_post E) as [r| |text]; try reflexivity.
  rewrite normalized_body_truthy.
  destruct (resp_json r) as [v|]; [|reflexivity].
  apply negb_true_iff in Hn. rewrite Hn. reflexivity.
Qed.

(** X23. When the backend answers a non-empty JSON object and
    [get_db()] gives a handle, the tool returns the object's "text"
    (None when absent) and, as citations, the normalized list of its
    "citations" (None when the key is absent), whether or not the log
    can be written. *)
Theorem X23_answer_text_and_citations E question timeout_s w svc rest r b body :
  registry_pp1 E = svc :: rest ->
  get_db_fault w = None ->
  normativa_post E = Responded r ->
  resp_json r = Ok (VDict (b :: body)) ->
  fst (ask_normativa_tool E question timeout_s w)
  = Ok {| a_text := get (b :: body) "text";
          a_citations :=
            if contains "citations" (b :: body)
            then citations_value (normalize_citations (get (b :: body) "citations"))
            else VNone |}.
Proof.
  intros Hreg Hg Hp Hj.
  pose proof (ask_normativa_tool_run E question timeout_s w svc rest Hreg) as [_ H].
  rewrite Hg in H. destruct H as [-> _]. rewrite Hp.
  unfold py_or. rewrite normalized_body_truthy, Hj. cbn [truthy].
  unfold normalized_body. rewrite Hj.
  destruct (contains "citations" (b :: body)) eqn:Hc.
  - f_equal. f_equal.
    + unfold get, get_or. rewrite lookup_setitem_other by discriminate. reflexivity.
    + unfold get at 1, get_or at 1. rewrite lookup_setitem_same. reflexivity.
  - f_equal. f_equal. unfold contains in Hc. unfold get, get_or.
    destruct (lookup "citations" (b :: body)); [discriminate|reflexivity].
Qed.

(** X24. [get_db()] is called outside the [try]: when it raises, the
    tool raises that exception although the backend was asked, and
    writes no log. *)
Theorem X24_tool_get_db_failure_propagates E question timeout_s w svc rest e :
  registry_pp1 E = svc :: rest ->
  get_db_fault w = Some e ->
  fst (ask_normativa_tool E question timeout_s w) = Raise e
  /\ service_logs (snd (ask_normativa_tool E question timeout_s w)) = service_logs w
  /\ access_logs (snd (ask_normativa_tool E question timeout_s w)) = access_logs w.
Proof.
  intros Hreg Hg.
  pose proof (ask_normativa_tool_run E question timeout_s w svc rest Hreg) as [Ha H].
  rewrite Hg in H. destruct H as [H Hs]. auto.
Qed.

(** X25. With a working sink the tool logs the one call it made: it
    appends exactly one document to service_logs, tagged "pp1", with the
    request id, the name and endpoint of the registry's first PP1 entry,
    and the timeout flag and error of the call. *)
Theorem X25_tool_logs_first_entry E question timeout_s w svc rest :
  registry_pp1 E = svc :: rest ->
  get_db_fault w = None ->
  insert_fault w = None ->
  exists entry,
    service_logs (snd (ask_normativa_tool E question timeout_s w))
    = (service_logs w ++ [entry])%list
    /\ sl_service_type entry = "pp1"
    /\ sl_request_id entry = n_uuid4_hex E
    /\ sl_service_name entry = p_name svc
    /\ sl_endpoint entry = p_endpoint svc
    /\ sl_error entry = match normativa_post E with
                        | Responded _ => None
                        | RaisedTimeout => Some "timeout"
                        | RaisedException text => Some text
                        end
    /\ sl_timeout entry = match normativa_post E with
                          | RaisedTimeout => true
                          | _ => false
                          end.
Proof.
  intros Hreg Hg Hi.
  pose proof (ask_normativa_tool_run E question timeout_s w svc rest Hreg) as [_ H].
  rewrite Hg, Hi in H. destruct H as [_ Hs].
  eexists. split; [exact Hs|]. cbn. auto 10.
Qed.

End Normativa.

(* ================================================================== *)
(** * db/mongo.py: the one client, and the indexes *)
(* ================================================================== *)

Section MongoFacts.
Import Mongo.
Variable D : driver.

Lemma create_all_spec (db : nat) (decls : list index_decl) (st : module_state) :
  let out := create_all D db decls st in
  _client (snd out) = _client st
  /\ constructions (snd out) = constructions st
  /\ exists k,
       (k <= List.length decls)%nat
       /\ issued (snd out) = (issued st ++ firstn k decls)%list
       /\ match fst out with
          | None => k = List.length decls
          | Some e =>
              (0 < k)%nat
              /\ exists n d, nth_error decls (pred k) = Some d
                             /\ create_index D n db d = inl e
          end.
Proof.
  revert st. induction decls as [|d rest IH]; intros st; cbn [create_all].
  - cbn. split; [reflexivity|]. split; [reflexivity|].
    exists 0%nat. cbn. rewrite app_nil_r. auto.
  - destruct (create_index D (calls st) db d) as [e|s] eqn:Hd.
    + cbn. split; [reflexivity|]. split; [reflexivity|].
      exists 1%nat. cbn. split; [lia|]. split; [reflexivity|].
      split; [lia|]. eauto.
    + match goal with |- context [create_all D db rest ?s1] =>
        destruct (IH s1) as (Hc & Hn & k & Hk & Hi & Hf) end.
      cbn [_client constructions issued] in Hc, Hn, Hi.
      split; [exact Hc|]. split; [exact Hn|].
      exists (S k). split; [cbn; lia|].
      split; [rewrite Hi, <- app_assoc; reflexivity|].
      match goal with |- context [create_all D db rest ?s1] =>
        destruct (fst (create_all D db rest s1)) as [e|] end.
      * destruct Hf as (Hpos & n & d' & Hnth & He).
        split; [lia|]. exists n, d'. split; [|exact He].
        destruct k; [lia|]. exact Hnth.
      * cbn. now rewrite Hf.
Qed.

Lemma step_keeps_client (c0 : call) (st : module_state) (c : nat) :
  _client st = Some c ->
  _client (step D c0 st) = Some c /\ constructions (step D c0 st) = constructions st.
Proof.
  intros Hc.
  assert (Hg : get_client D st = (inr c, st)) by (unfold get_client; now rewrite Hc).
  destruct c0; unfold step, get_db, is_healthy, ensure_indexes, get_db; rewrite Hg.
  - auto.
  - auto.
  - destruct (admin_command_ping D (calls st) c) as [e|[]]; cbn;
      [destruct (is_server_selection_timeout e)|]; cbn; auto.
  - destruct (create_all_spec c declared_indexes st) as (H1 & H2 & _).
    destruct (create_all D c declared_indexes st) as [o st2]. cbn in *.
    rewrite H1, H2. auto.
Qed.

(** X26. Once the module holds a client, every later call of
    [get_client], [get_db], [is_healthy] or [ensure_indexes], in any
    order and whatever the server does, keeps that client:
    [MongoClient(...)] is not constructed again and [get_client()]
    returns the same handle. *)
Theorem X26_client_constructed_once (cs : list call) (st : module_state) (c : nat) :
  _client st = Some c ->
  _client (steps D cs st) = Some c
  /\ constructions (steps D cs st) = constructions st
  /\ fst (get_client D (steps D cs st)) = inr c.
Proof.
  revert st. induction cs as [|c0 cs IH]; intros st Hc.
  - cbn. split; [exact Hc|]. split; [reflexivity|].
    unfold get_client. now rewrite Hc.
  - destruct (step_keeps_client c0 st c Hc) as [Hc' Hn'].
    destruct (IH (step D c0 st) Hc') as (H1 & H2 & H3).
    cbn [steps fold_left]. fold (steps D cs (step D c0 st)).
    split; [exact H1|]. split; [congruence|exact H3].
Qed.

Lemma create_all_stops (db : nat) (decls : list index_decl) (st : module_state) :
  exists k,
    (k <= List.length decls)%nat
    /\ issued (snd (create_all D db decls st)) = (issued st ++ firstn k decls)%list
    /\ (forall j d, (S j < k)%nat -> nth_error decls j = Some d ->
                    exists s, create_index D (calls st + j) db d = inr s)
    /\ ((k < List.length decls)%nat ->
        (0 < k)%nat
        /\ exists d e, nth_error decls (pred k) = Some d
                       /\ create_index D (calls st + pred k) db d = inl e).
Proof.
  revert st. induction decls as [|d rest IH]; intros st; cbn [create_all].
  - exists 0%nat. cbn. rewrite app_nil_r.
    split; [lia|]. split; [reflexivity|]. split; [intros j d Hj; lia|lia].
  - destruct (create_index D (calls st) db d) as [e|s] eqn:Hd.
    + exists 1%nat. cbn [snd issued firstn List.length pred].
      split; [lia|]. split; [reflexivity|]. split; [intros j d' Hj; lia|].
      intros _. split; [lia|]. exists d, e. rewrite Nat.add_0_r. auto.
    + match goal with |- context [create_all D db rest ?s1] =>
        destruct (IH s1) as (k & Hk & Hi & Hbefore & Hlast) end.
      cbn [calls issued] in Hi, Hbefore, Hlast.
      exists (S k). cbn [List.length firstn pred].
      split; [lia|]. split; [rewrite Hi, <- app_assoc; reflexivity|]. split.
      * intros [|j] d' Hj Hnth; cbn in Hnth.
        -- injection Hnth as <-. rewrite Nat.add_0_r. eauto.
        -- rewrite Nat.add_succ_r. apply Hbefore; [lia|exact Hnth].
      * intros Hlt. destruct Hlast as (Hpos & d' & e & Hnth & He); [lia|].
        split; [lia|]. exists d', e. destruct k as [|k']; [lia|].
        cbn [pred] in Hnth, He. split; [exact Hnth|].
        rewrite Nat.add_succ_r. exact He.
Qed.

(** X27. When [get_db()] gives a handle, [ensure_indexes] raises
    nothing and issues the seven declared [create_index] calls in
    order, up to and including the first that raises: every call before
    the last one issued returned, and when fewer than seven are issued
    the last one issued raised, so that nothing is attempted after a
    failing call. All seven are issued when none raises. *)
Theorem X27_ensure_indexes_stops_at_first_failure (st : module_state) (db : nat) :
  fst (get_db D st) = inr db ->
  fst (ensure_indexes D st) = inr tt
  /\ exists k,
       (k <= 7)%nat
       /\ issued (snd (ensure_indexes D st))
          = (issued st ++ firstn k declared_indexes)%list
       /\ (forall j d, (S j < k)%nat -> nth_error declared_indexes j = Some d ->
              exists s, create_index D (calls (snd (get_db D st)) + j) db d = inr s)
       /\ ((k < 7)%nat ->
           (0 < k)%nat
           /\ exists d e, nth_error declared_indexes (pred k) = Some d
                          /\ create_index D (calls (snd (get_db D st)) + pred k) db d
                             = inl e)
       /\ ((forall n d, exists s, create_index D n db d = inr s) -> k = 7%nat).
Proof.
  intros Hg. unfold ensure_indexes.
  destruct (get_db D st) as [[e|db'] st1] eqn:Hdb; cbn [fst snd] in Hg |- *;
    [discriminate|].
  injection Hg as ->.
  assert (Hi1 : issued st1 = issued st).
  { unfold get_db, get_client in Hdb. destruct (_client st).
    - now injection Hdb as _ <-.
    - destruct (MongoClient D (calls st)); injection Hdb as _ <-; reflexivity. }
  destruct (create_all_stops db declared_indexes st1) as (k & Hk & Hi & Hbefore & Hlast).
  destruct (create_all D db declared_indexes st1) as [o st2]. cbn [fst snd] in *.
  split; [reflexivity|]. exists k. split; [exact Hk|].
  split; [now rewrite Hi, Hi1|]. split; [exact Hbefore|]. split; [exact Hlast|].
  intros Hok. cbn [List.length declared_indexes] in Hk, Hlast.
  destruct (Nat.eq_dec k 7) as [Heq|Hne]; [exact Heq|].
  destruct Hlast as (_ & d & e & _ & He); [lia|].
  destruct (Hok (calls st1 + pred k)%nat d) as [s Hs]. congruence.
Qed.

End MongoFacts.

(* ================================================================== *)
(** * What identify_person can raise, and NaN *)
(* ================================================================== *)

Section RaisesAndNaN.
Context {B : Builtins}.

Lemma coerce_fields_raise (res : dict) (e : exn) :
  coerce_fields res = Raise e -> exn_cls e = OverflowError.
Proof.
  unfold coerce_fields.
  assert (Hcase : forall v e0,
             py_float v = Raise e0 ->
             (if is_class ValueError e0 || is_class TypeError e0
              then Ok (false, PyFloat.zero, PyFloat.f0_5, PyFloat.zero)
              else Raise e0) = Raise e ->
             exn_cls e = OverflowError).
  { intros v e0 Hv. destruct (py_float_classes v e0 Hv) as [Hc|[Hc|Hc]];
      unfold is_class; rewrite Hc; cbn; try discriminate.
    intros [= <-]. exact Hc. }
  destruct (py_float (get_or res "score" (VInt 0))) as [s|e0] eqn:Hs; cbn [exc_bind];
    [|now apply (Hcase _ _ Hs)].
  destruct (py_float (get_or res "threshold" (VFloat PyFloat.f0_5))) as [t|e0] eqn:Ht;
    cbn [exc_bind]; [|now apply (Hcase _ _ Ht)].
  destruct (py_float (get_or res "timing_ms" (VInt 0))) as [m|e0] eqn:Hm;
    cbn [exc_bind]; [discriminate|now apply (Hcase _ _ Hm)].
Qed.

Lemma build_candidates_raise (results : list outcome) (e : exn) :
  build_candidates results = Raise e -> exn_cls e = OverflowError.
Proof.
  induction results as [|o rest IH]; cbn [build_candidates]; [discriminate|].
  unfold candidate_of.
  destruct (result o) as [| | | | | |res]; cbn [exc_bind];
    try (destruct (build_candidates rest); cbn [exc_bind];
         [discriminate|intros [= <-]; now apply IH]).
  destruct (contains "score" res); cbn [exc_bind].
  - destruct (coerce_fields res) as [[[[m s] t] g]|e0] eqn:Hc; cbn [exc_bind].
    + destruct (build_candidates rest); cbn [exc_bind];
        [discriminate|intros [= <-]; now apply IH].
    + intros [= <-]. now apply (coerce_fields_raise res).
  - destruct (build_candidates rest); cbn [exc_bind];
      [discriminate|intros [= <-]; now apply IH].
Qed.

(** X28. For arguments of the declared types, in a call from
    synchronous code, and once both registry snapshots are lists of
    descriptor mappings (what the types of [identify_person] and [env]
    hold; [load_registry()] itself, which raises on a file that is not a
    YAML mapping, and a registry whose pp2 is not a list are outside
    them), an exception that leaves [identify_person] is the one
    [get_db()] raised, or the [OverflowError] of a score, threshold or
    timing_ms that is an integer too large for a float. No failure of a
    backend call, no malformed payload and no failure to write the log
    makes it raise. *)
Theorem X28_what_identify_person_raises E image_b64 timeout_s delta w e :
  fst (identify_person E image_b64 timeout_s delta w) = Raise e ->
  get_db_fault w = Some e \/ exn_cls e = OverflowError.
Proof.
  intros Hrun.
  destruct (build_candidates (_identify_person_async E)) as [cs|e0] eqn:Hb.
  - pose proof (identify_person_run E image_b64 timeout_s delta w cs Hb) as [_ H].
    destruct (get_db_fault w) as [e1|].
    + destruct H as [H _]. rewrite H in Hrun. injection Hrun as ->. now left.
    + destruct H as [H _]. rewrite H in Hrun. discriminate.
  - right. unfold identify_person, bind, lift, time_time in Hrun.
    cbn [fst snd] in Hrun. rewrite Hb in Hrun. cbn in Hrun.
    injection Hrun as <-. now apply (build_candidates_raise _ _ Hb).
Qed.

Lemma float_nan_not_le (x y : PyFloat.float) :
  PyFloat.is_nan x = true -> PyFloat.le x y = false /\ PyFloat.le y x = false.
Proof.
  destruct x; try discriminate. intros _. destruct y as [[|]|[|]| |[|] ? ?]; auto.
Qed.

(** X29. A candidate whose score is NaN is never identified, and
    neither is a candidate whose registry threshold is NaN: with such a
    top candidate the decision is unknown with no identity, whatever the
    other candidates and delta. *)
Theorem X29_nan_is_never_identified (pp2_list : list descriptor) (delta : PyFloat.float)
    (top : candidate) (rest : list candidate) :
  PyFloat.is_nan (c_score top) = true
  \/ PyFloat.is_nan (resolve_threshold pp2_list top) = true ->
  decide pp2_list delta (top :: rest) = (unknown, None).
Proof.
  intros Hnan. unfold decide, PyFloat.ge.
  assert (Hle : PyFloat.le (resolve_threshold pp2_list top) (c_score top) = false).
  { destruct Hnan as [H|H]; [apply (float_nan_not_le _ _ H)|apply (float_nan_not_le _ _ H)]. }
  rewrite Hle, andb_false_r. reflexivity.
Qed.

End RaisesAndNaN.

(* ================================================================== *)
(** * Concrete runs, continued *)
(* ================================================================== *)


Lemma X2_witness :
  List.length (_identify_person_async two_close_verifiers) = 2%nat
  /\ nth_error (_identify_person_async two_close_verifiers) 1
     = Some (replied (Some "B") "http://b/verify"
               (payload true (VFloat (PyFloat.ratio 95 100)))).
Proof.
  exact (X2_one_outcome_per_task_in_order two_close_verifiers 1 (Some "B")
           "http://b/verify" eq_refl).
Defined.

Lemma X4_witness :
  exists o,
    nth_error (_identify_person_async all_failing) 1 = Some o
    /\ service_name o = Some "B" /\ endpoint o = "http://b/verify"
    /\ error o = Some "connection_error: connection refused" /\ result o = VNone
    /\ timeout o = false.
Proof.
  exact (X4_adapter_outcomes_name_their_task all_failing _ "img" 15
           "0123456789abcdef0123456789abcdef" quiet_world 1 (Some "B")
           "http://b/verify" eq_refl eq_refl).
Defined.

Lemma X5_witness :
  fst (call_verifier (failing_posts 0) (Some "A") "http://a/verify" "img" 15
         (Some "rid") quiet_world)
  = fst (call_verifier (failing_posts 0) (Some "A") "http://a/verify" "img" 15
           None no_db_world).
Proof.
  apply X5_outcome_independent_of_audit. split; reflexivity.
Defined.

Lemma X7_witness :
  exists o,
    fst (call_verifier (failing_posts 0) (Some "A") "http://a/verify" "img" 15
           (Some "rid") quiet_world) = Ok o
    /\ service_logs (snd (call_verifier (failing_posts 0) (Some "A") "http://a/verify"
                            "img" 15 (Some "rid") quiet_world))
       = ([] ++ [{| sl_request_id := "rid";
                    sl_ts := PyFloat.zero;
                    sl_service_type := "pp2";
                    sl_service_name := Some "A";
                    sl_endpoint := "http://a/verify";
                    sl_latency_ms := latency_ms o;
                    sl_status_code := status_code o;
                    sl_result := result o;
                    sl_timeout := timeout o;
                    sl_error := error o |}])%list
    /\ access_logs (snd (call_verifier (failing_posts 0) (Some "A") "http://a/verify"
                           "img" 15 (Some "rid") quiet_world)) = [].
Proof.
  exact (X7_one_service_log_mirrors_outcome (failing_posts 0) (Some "A")
           "http://a/verify" "img" 15 "rid" quiet_world eq_refl eq_refl).
Defined.

Lemma X8_witness :
  (exists o,
     fst (call_verifier (failing_posts 0) (Some "A") "http://a/verify" "img" 15
            (Some "rid") no_insert_world) = Ok o)
  /\ service_logs (snd (call_verifier (failing_posts 0) (Some "A") "http://a/verify"
                          "img" 15 (Some "rid") no_insert_world)) = []
  /\ access_logs (snd (call_verifier (failing_posts 0) (Some "A") "http://a/verify"
                         "img" 15 (Some "rid") no_insert_world)) = [].
Proof.
  apply (X8_no_log_without_id_or_sink (failing_posts 0) (Some "A") "http://a/verify"
           "img" 15 (Some "rid") no_insert_world).
  right. right. discriminate.
Defined.

Lemma X9_witness :
  List.length (r_candidates two_close_result)
  = List.length (filter has_score_payload (_identify_person_async two_close_verifiers))
  /\ (List.length (r_candidates two_close_result)
      <= List.length (build_tasks (registry_async two_close_verifiers)))%nat.
Proof.
  apply (X9_candidates_counted (B:=sample_builtins) two_close_verifiers "img" 15
           default_delta quiet_world).
  vm_compute. reflexivity.
Defined.

Lemma X10_witness :
  exists r,
    fst (identify_person (B:=sample_builtins) all_failing "img" 15 default_delta
           quiet_world) = Ok r
    /\ r_decision r = unknown /\ r_identity r = None /\ r_candidates r = [].
Proof.
  apply (X10_no_usable_payload_is_unknown (B:=sample_builtins)).
  - vm_compute. repeat constructor.
  - reflexivity.
Defined.


Lemma X12_witness :
  fst (identify_person (B:=sample_builtins) two_close_verifiers "img" 15 default_delta
         no_db_world) = Raise (mk_exn OtherException "invalid URI")
  /\ access_logs (snd (identify_person (B:=sample_builtins) two_close_verifiers "img" 15
                         default_delta no_db_world)) = []
  /\ service_logs (snd (identify_person (B:=sample_builtins) two_close_verifiers "img" 15
                          default_delta no_db_world)) = [].
Proof.
  apply (X12_get_db_failure_propagates (B:=sample_builtins) two_close_verifiers "img" 15
           default_delta no_db_world [ranked_A; ranked_B]).
  - vm_compute. reflexivity.
  - reflexivity.
Defined.

Lemma X13_witness :
  fst (identify_person (B:=sample_builtins) two_close_verifiers "img" 15 default_delta
         quiet_world)
  = fst (identify_person (B:=sample_builtins) two_close_verifiers "img" 15 default_delta
           no_insert_world).
Proof.
  apply X13_result_independent_of_access_log; [split; reflexivity|reflexivity].
Defined.

Lemma X14_witness :
  exists entry,
    access_logs (snd (identify_person (B:=sample_builtins) two_close_verifiers "img" 15
                        default_delta quiet_world))
    = ([] ++ [entry])%list
    /\ al_request_id entry = "0123456789abcdef0123456789abcdef"
    /\ al_route entry = "/identify-and-answer"
    /\ al_decision entry = ambiguous
    /\ al_identity entry = None
    /\ al_total_consulted entry = 2%nat
    /\ al_timeouts entry = 0%nat
    /\ al_timing_ms entry = PyFloat.zero
    /\ al_status_code entry = 200.
Proof.
  apply (X14_access_log_written (B:=sample_builtins) two_close_verifiers "img" 15
           default_delta quiet_world two_close_result eq_refl eq_refl).
  vm_compute. reflexivity.
Defined.

Lemma X15_witness :
  Forall (fun c => PyFloat.le (c_score c) (c_score ranked_A) = true)
    [ranked_B; ranked_A; tied_B]
  /\ find (fun c => PyFloat.eqb (c_score c) (c_score ranked_A))
       [ranked_B; ranked_A; tied_B] = Some ranked_A.
Proof.
  apply (X15_top_is_first_maximum [ranked_B; ranked_A; tied_B] ranked_A
           [tied_B; ranked_B]).
  - repeat constructor.
  - vm_compute. reflexivity.
Defined.

Lemma X16_witness :
  decide (B:=sample_builtins) [verifier_A; verifier_B] PyFloat.zero
    [ranked_A; tied_B; ranked_B] = (ambiguous, None).
Proof.
  apply X16_exact_tie_is_ambiguous; vm_compute; reflexivity.
Defined.

Lemma X17_witness :
  well_formed_citation [("doc", "Civil Code"); ("page", "12"); ("url", "")].
Proof.
  exact (X17_normalized_citation_keys (B:=sample_builtins) (VDict citation_page_12)
           _ eq_refl).
Defined.

Lemma X19_witness :
  normalize_citations (B:=printing_builtins)
    (citations_value
       (normalize_citations (B:=printing_builtins)
          (VList [VDict citation_page_12; VStr "not a citation"])))
  = normalize_citations (B:=printing_builtins)
      (VList [VDict citation_page_12; VStr "not a citation"]).
Proof.
  apply X19_normalize_citations_idempotent. intros v. discriminate.
Defined.

Lemma X20_witness :
  exists o d,
    fst (ask_normativa (B:=sample_builtins) (Responded answered) (Some "normativa")
           "http://pp1/query" "q" 15 quiet_world) = Ok o
    /\ result o = VDict d /\ error o = None /\ status_code o = Some 200
    /\ (forall k, k <> "citations" -> lookup k d = lookup k answer_body)
    /\ exists l,
         lookup "citations" d = Some (citations_value l)
         /\ l = normalize_citations (B:=sample_builtins) (get answer_body "citations")
         /\ Forall well_formed_citation l.
Proof.
  exact (X20_ask_normativa_normalizes_citations (B:=sample_builtins) answered
           answer_body (Some "normativa") "http://pp1/query" "q" 15 quiet_world eq_refl).
Defined.

Lemma X21_witness :
  fst (ask_normativa_tool (B:=sample_builtins) (normativa_with [] RaisedTimeout) "q" 15
         no_db_world)
  = Ok {| a_text := VStr "No PP1 configured"; a_citations := VList [] |}
  /\ service_logs (snd (ask_normativa_tool (B:=sample_builtins)
                          (normativa_with [] RaisedTimeout) "q" 15 no_db_world)) = []
  /\ access_logs (snd (ask_normativa_tool (B:=sample_builtins)
                         (normativa_with [] RaisedTimeout) "q" 15 no_db_world)) = [].
Proof.
  exact (X21_no_pp1_configured (B:=sample_builtins) (normativa_with [] RaisedTimeout)
           "q" 15 no_db_world eq_refl).
Defined.

Lemma X22_witness :
  fst (ask_normativa_tool (B:=sample_builtins)
         (normativa_with [normativa_svc] RaisedTimeout) "q" 15 no_insert_world)
  = Ok {| a_text := VNone; a_citations := VNone |}.
Proof.
  exact (X22_no_answer_gives_none (B:=sample_builtins)
           (normativa_with [normativa_svc] RaisedTimeout) "q" 15 no_insert_world
           normativa_svc [] eq_refl eq_refl eq_refl).
Defined.

Lemma X23_witness :
  fst (ask_normativa_tool (B:=sample_builtins)
         (normativa_with [normativa_svc] (Responded answered)) "q" 15 quiet_world)
  = Ok {| a_text := VStr "Article 12 applies.";
          a_citations :=
            citations_value [[("doc", "Civil Code"); ("page", "12"); ("url", "")]] |}.
Proof.
  exact (X23_answer_text_and_citations (B:=sample_builtins)
           (normativa_with [normativa_svc] (Responded answered)) "q" 15 quiet_world
           normativa_svc [] answered _ _ eq_refl eq_refl eq_refl eq_refl).
Defined.

Lemma X24_witness :
  fst (ask_normativa_tool (B:=sample_builtins)
         (normativa_with [normativa_svc] (Responded answered)) "q" 15 no_db_world)
  = Raise (mk_exn OtherException "invalid URI")
  /\ service_logs (snd (ask_normativa_tool (B:=sample_builtins)
                          (normativa_with [normativa_svc] (Responded answered)) "q" 15
                          no_db_world)) = []
  /\ access_logs (snd (ask_normativa_tool (B:=sample_builtins)
                         (normativa_with [normativa_svc] (Responded answered)) "q" 15
                         no_db_world)) = [].
Proof.
  exact (X24_tool_get_db_failure_propagates (B:=sample_builtins)
           (normativa_with [normativa_svc] (Responded answered)) "q" 15 no_db_world
           normativa_svc [] _ eq_refl eq_refl).
Defined.

Lemma X25_witness :
  exists entry,
    service_logs (snd (ask_normativa_tool (B:=sample_builtins)
                         (normativa_with [normativa_svc] RaisedTimeout) "q" 15
                         quiet_world))
    = ([] ++ [entry])%list
    /\ sl_service_type entry = "pp1"
    /\ sl_request_id entry = "0123456789abcdef0123456789abcdef"
    /\ sl_service_name entry = Some "normativa"
    /\ sl_endpoint entry = "http://pp1/query"
    /\ sl_error entry = Some "timeout"
    /\ sl_timeout entry = true.
Proof.
  exact (X25_tool_logs_first_entry (B:=sample_builtins)
           (normativa_with [normativa_svc] RaisedTimeout) "q" 15 quiet_world
           normativa_svc [] eq_refl eq_refl eq_refl).
Defined.

Lemma X26_witness :
  Mongo._client (Mongo.steps accepting_driver
                   [Mongo.call_is_healthy; Mongo.call_ensure_indexes] connected)
  = Some 1%nat
  /\ Mongo.constructions (Mongo.steps accepting_driver
                            [Mongo.call_is_healthy; Mongo.call_ensure_indexes] connected)
     = 1%nat
  /\ fst (Mongo.get_client accepting_driver
            (Mongo.steps accepting_driver
               [Mongo.call_is_healthy; Mongo.call_ensure_indexes] connected))
     = inr 1%nat.
Proof.
  exact (X26_client_constructed_once accepting_driver
           [Mongo.call_is_healthy; Mongo.call_ensure_indexes] connected 1%nat eq_refl).
Defined.

Lemma X27_witness :
  Mongo.issued (snd (Mongo.ensure_indexes refusing_driver Mongo.initial))
  = firstn 3 Mongo.declared_indexes
  /\ fst (Mongo.ensure_indexes refusing_driver Mongo.initial) = inr tt
  /\ exists k,
       (k <= 7)%nat
       /\ Mongo.issued (snd (Mongo.ensure_indexes refusing_driver Mongo.initial))
          = ([] ++ firstn k Mongo.declared_indexes)%list
       /\ (forall j d, (S j < k)%nat -> nth_error Mongo.declared_indexes j = Some d ->
              exists s, Mongo.create_index refusing_driver (1 + j) 1%nat d = inr s)
       /\ ((k < 7)%nat ->
           (0 < k)%nat
           /\ exists d e, nth_error Mongo.declared_indexes (pred k) = Some d
                          /\ Mongo.create_index refusing_driver (1 + pred k) 1%nat d
                             = inl e)
       /\ ((forall n d, exists s, Mongo.create_index refusing_driver n 1%nat d = inr s)
           -> k = 7%nat).
Proof.
  split; [reflexivity|].
  exact (X27_ensure_indexes_stops_at_first_failure refusing_driver Mongo.initial 1%nat
           eq_refl).
Defined.

Lemma X28_witness :
  get_db_fault no_db_world = Some (mk_exn OtherException "invalid URI")
  \/ exn_cls (mk_exn OtherException "invalid URI") = OverflowError.
Proof.
  apply (X28_what_identify_person_raises (B:=sample_builtins) two_close_verifiers "img"
           15 default_delta no_db_world).
  vm_compute. reflexivity.
Defined.

Lemma X29_witness :
  decide (B:=sample_builtins) [verifier_A; verifier_B] default_delta
    [scored "B" S754_nan; scored "A" (PyFloat.of_Z 1)] = (unknown, None).
Proof.
  apply X29_nan_is_never_identified. left. reflexivity.
Defined.
